(** * Course registration and grade management: enrollment workflow

    A shallow embedding of the enrollment-eligibility, drop and
    grade-posting paths of the application ([config.py], [models.py],
    [dao.py], [services.py]) together with the properties stated for
    them.

    Numbers.  Python [int]s are [Z].  Python [float]s (grades, grade
    points, credits) are modelled by the rationals [Q]: every finite
    float is a rational, the comparisons the code performs between
    floats and integer literals are exact, and the only arithmetic on
    floats is the sum of credits, which is taken exactly.  The grade
    point literals [3.7], [3.3], ... are the decimal rationals they
    denote. *)

From Stdlib Require Import ZArith QArith Lqa Lia List String Bool.
From stdpp Require Import gmap strings list pretty.
Import ListNotations.

Local Open Scope string_scope.
Local Open Scope list_scope.
Local Open Scope Z_scope.

(** ** config.py *)

Module AppConfig.

Definition MIN_CREDITS_PER_SEMESTER : Z := 10.
Definition MAX_CREDITS_PER_SEMESTER : Z := 40.
Definition PASSING_GRADE : Q := 60.0%Q.
Definition MAX_GPA : Q := 4.0%Q.

(** [GRADE_SCALE] is a dict literal keyed by [(min_grade, max_grade)];
    iteration follows insertion order, so it is kept as an association
    list in the order the literal is written. *)
Definition GRADE_SCALE : list ((Z * Z) * Q) :=
  [ ((97, 100), 4.0%Q);
    ((93, 96), 3.7%Q);
    ((90, 92), 3.3%Q);
    ((87, 89), 3.0%Q);
    ((83, 86), 2.7%Q);
    ((80, 82), 2.3%Q);
    ((77, 79), 2.0%Q);
    ((73, 76), 1.7%Q);
    ((70, 72), 1.3%Q);
    ((67, 69), 1.0%Q);
    ((65, 66), 0.7%Q);
    ((0, 64), 0.0%Q) ].

(** [min_grade <= grade <= max_grade] *)
Definition in_range (min_grade max_grade : Z) (grade : Q) : bool :=
  Qle_bool (inject_Z min_grade) grade && Qle_bool grade (inject_Z max_grade).

(** The [for ... in cls.GRADE_SCALE.items()] loop with its fall-through
    [return 0.0]. *)
Fixpoint scan_scale (scale : list ((Z * Z) * Q)) (grade : Q) : Q :=
  match scale with
  | [] => 0.0%Q
  | ((min_grade, max_grade), points) :: rest =>
      if in_range min_grade max_grade grade then points
      else scan_scale rest grade
  end.

Definition calculate_grade_points (grade : option Q) : option Q :=
  match grade with
  | None => None
  | Some g => Some (scan_scale GRADE_SCALE g)
  end.

End AppConfig.

(** ** Python truthiness of optional strings and numbers *)

Definition truthy_str (s : option string) : bool :=
  match s with
  | Some v => negb (String.eqb v "")
  | None => false
  end.

Definition truthy_int (n : option Z) : bool :=
  match n with
  | Some v => negb (v =? 0)
  | None => false
  end.

(** [a == b] on two optional strings *)
Definition opt_str_eqb (a b : option string) : bool :=
  match a, b with
  | Some x, Some y => String.eqb x y
  | None, None => true
  | _, _ => false
  end.

(** ** models.py *)

Module Models.

Inductive EnrollmentStatus := ENROLLED | DROPPED | COMPLETED | FAILED.

(** The text code of a status, the [.value] of the enum member and the
    content of the store's [Status] column. *)
Definition status_value (s : EnrollmentStatus) : string :=
  match s with
  | ENROLLED => "Enrolled"
  | DROPPED => "Dropped"
  | COMPLETED => "Completed"
  | FAILED => "Failed"
  end.

Definition status_eqb (a b : EnrollmentStatus) : bool :=
  match a, b with
  | ENROLLED, ENROLLED | DROPPED, DROPPED
  | COMPLETED, COMPLETED | FAILED, FAILED => true
  | _, _ => false
  end.

(** [EnrollmentInfo] and [SectionInfo], restricted to the fields the
    workflow reads; the display-only fields (names, location,
    instructor, dates) are left out. *)
Record EnrollmentInfo := {
  enrollment_id : Z;
  student_id : string;
  course_id : string;
  credits : Q;
  section_id : Z;
  semester : string;
  year : Z;
  time_slot : option string;
  status : string;
  final_grade : option Q;
  grade_points : option Q
}.

Record SectionInfo := {
  si_section_id : Z;
  si_course_id : string;
  si_credits : Q;
  si_semester : string;
  si_year : Z;
  max_capacity : Z;
  current_enrollment : Z;
  available_spots : Z;
  si_time_slot : option string
}.

End Models.
Import Models.

(** ** The relational store

    The tables the workflow touches, with the columns it reads or
    writes.  [Course] and [Section] are keyed by their primary keys;
    [Enrollment] is kept as the list of its rows in insertion order;
    [Student] is the set of registered student identifiers. *)

Module Store.

Record CourseRow := { Credits : Q }.

Record SectionRow := {
  CourseID : string;
  Semester : string;
  Year : Z;
  MaxCapacity : Z;
  TimeSlot : option string
}.

Record EnrollmentRow := {
  EnrollmentID : Z;
  StudentID : string;
  SectionID : Z;
  Status : EnrollmentStatus;
  FinalGrade : option Q;
  GradePoints : option Q
}.

Record DB := {
  Student : gset string;
  Course : gmap string CourseRow;
  Section : gmap Z SectionRow;
  Enrollment : list EnrollmentRow
}.

Definition with_Enrollment (rows : list EnrollmentRow) (d : DB) : DB :=
  {| Student := Student d; Course := Course d; Section := Section d;
     Enrollment := rows |}.

Definition set_Status (s : EnrollmentStatus) (e : EnrollmentRow) : EnrollmentRow :=
  {| EnrollmentID := EnrollmentID e; StudentID := StudentID e;
     SectionID := SectionID e; Status := s;
     FinalGrade := FinalGrade e; GradePoints := GradePoints e |}.

(** [Status = 'Enrolled'] *)
Definition is_Enrolled (e : EnrollmentRow) : bool := status_eqb (Status e) ENROLLED.

(** [SELECT COUNT( * ) FROM Enrollment WHERE Status = 'Enrolled'], for
    one [SectionID] group. *)
Definition enrolled_count (d : DB) (section_id : Z) : Z :=
  Z.of_nat (length (List.filter (fun e => (SectionID e =? section_id) && is_Enrolled e)
                           (Enrollment d))).

End Store.
Import Store.

(** ** The stored procedure behind [EnrollmentDAO.enroll_student] *)

Module Procedures.

Definition same_term (a b : SectionRow) : bool :=
  String.eqb (Semester a) (Semester b) && (Year a =? Year b).

(** The student's current-term rows with status Enrolled, each with
    the section it refers to. *)
Definition enrolled_in_term (d : DB) (student_id : string) (target : SectionRow)
  : list (EnrollmentRow * SectionRow) :=
  omap (fun e =>
          if String.eqb (StudentID e) student_id && is_Enrolled e then
            match Section d !! SectionID e with
            | Some s => if same_term s target then Some (e, s) else None
            | None => None
            end
          else None)
       (Enrollment d).

Definition section_credits (d : DB) (s : SectionRow) : Q :=
  match Course d !! CourseID s with
  | Some c => Credits c
  | None => 0%Q
  end.

Definition shares_time_slot (a b : SectionRow) : bool :=
  match TimeSlot a, TimeSlot b with
  | Some x, Some y => String.eqb x y
  | _, _ => false
  end.

(** AUTO_INCREMENT key of a new row: above every key in use. *)
Definition next_EnrollmentID (d : DB) : Z :=
  1 + fold_right Z.max 0 (map EnrollmentID (Enrollment d)).

Definition new_Enrollment (d : DB) (student_id : string) (section_id : Z) : EnrollmentRow :=
  {| EnrollmentID := next_EnrollmentID d; StudentID := student_id;
     SectionID := section_id; Status := ENROLLED;
     FinalGrade := None; GradePoints := None |}.

(** Modelled from the spec: the body of the stored procedure
    [sp_EnrollStudent], which is defined in the schema script and is
    not part of the Python sources.  It follows the allocation
    algorithm of the specification: the section must exist and have
    [capacity - enrolled_count > 0] (SectionFull otherwise); the
    credits of the student's current-term Enrolled sections plus this
    section's credits must not exceed 40 (CreditLimitExceeded); no
    current-term Enrolled section may share the target's time-slot
    string (TimeConflict); the student must not hold an Enrolled row
    for this section (AlreadyEnrolled); then the row is inserted with
    status Enrolled.  The procedure runs as one atomic unit, so the
    capacity test and the insert see the same state.  It yields the
    new tables and the two OUT parameters (message, success flag). *)
Definition sp_EnrollStudent (d : DB) (student_id : string) (section_id : Z)
  : DB * (string * Z) :=
  match Section d !! section_id with
  | None => (d, ("SectionFull", 0))
  | Some target =>
      if MaxCapacity target - enrolled_count d section_id <=? 0
      then (d, ("SectionFull", 0))
      else
        let current := enrolled_in_term d student_id target in
        let total :=
          (fold_left Qplus (map (fun p => section_credits d (snd p)) current) 0
           + section_credits d target)%Q in
        if negb (Qle_bool total (inject_Z AppConfig.MAX_CREDITS_PER_SEMESTER))
        then (d, ("CreditLimitExceeded", 0))
        else if existsb (fun p => shares_time_slot (snd p) target) current
        then (d, ("TimeConflict", 0))
        else if existsb (fun p => SectionID (fst p) =? section_id) current
        then (d, ("AlreadyEnrolled", 0))
        else (with_Enrollment
                (Enrollment d ++ [new_Enrollment d student_id section_id]) d,
              ("Enrolled", 1))
  end.

End Procedures.

(** ** database.py: the persistence gateway

    [execute_update] runs one write statement and commits it; the
    journal records the statements that reached the store, in order.
    The statements are the three the enrollment DAO issues.  The two
    user variables hold the OUT parameters of the last procedure call
    and are read back by the DAO's [SELECT @result, @success]. *)

Module Gateway.

Inductive Statement :=
| UPDATE_Status_Dropped (student_id : string) (section_id : Z)
| UPDATE_Grade (final_grade : Q) (grade_points : option Q)
               (case_grade : Q) (enrollment_id : Z)
| CALL_sp_EnrollStudent (student_id : string) (section_id : Z).

Record Connection := {
  tables : DB;
  journal : list Statement;
  var_result : option string;
  var_success : option Z
}.

Definition connect (d : DB) : Connection :=
  {| tables := d; journal := []; var_result := None; var_success := None |}.

(** [WHERE StudentID = %s AND SectionID = %s AND Status = 'Enrolled'] *)
Definition drop_matches (student_id : string) (section_id : Z) (e : EnrollmentRow) : bool :=
  String.eqb (StudentID e) student_id && (SectionID e =? section_id) && is_Enrolled e.

(** [SET FinalGrade = %s, GradePoints = %s,
     Status = CASE WHEN %s >= 60 THEN 'Completed' ELSE 'Failed' END] *)
Definition set_grade (final_grade : Q) (grade_points : option Q) (case_grade : Q)
           (e : EnrollmentRow) : EnrollmentRow :=
  {| EnrollmentID := EnrollmentID e; StudentID := StudentID e;
     SectionID := SectionID e;
     Status := if Qle_bool 60 case_grade then COMPLETED else FAILED;
     FinalGrade := Some final_grade; GradePoints := grade_points |}.

(** Returns [cursor.rowcount], here the number of rows the WHERE
    clause selects.  For the drop statement every selected row
    changes, so this is also the number of changed rows. *)
Definition execute_update (stmt : Statement) (c : Connection) : Z * Connection :=
  let d := tables c in
  match stmt with
  | UPDATE_Status_Dropped student_id section_id =>
      let hit := drop_matches student_id section_id in
      (Z.of_nat (length (List.filter hit (Enrollment d))),
       {| tables := with_Enrollment
                      (map (fun e => if hit e then set_Status DROPPED e else e)
                           (Enrollment d)) d;
          journal := journal c ++ [stmt];
          var_result := var_result c; var_success := var_success c |})
  | UPDATE_Grade final_grade grade_points case_grade enrollment_id =>
      let hit := fun e => EnrollmentID e =? enrollment_id in
      (Z.of_nat (length (List.filter hit (Enrollment d))),
       {| tables := with_Enrollment
                      (map (fun e => if hit e
                                     then set_grade final_grade grade_points case_grade e
                                     else e)
                           (Enrollment d)) d;
          journal := journal c ++ [stmt];
          var_result := var_result c; var_success := var_success c |})
  | CALL_sp_EnrollStudent student_id section_id =>
      let '(d', (message, success)) :=
        Procedures.sp_EnrollStudent d student_id section_id in
      (0,
       {| tables := d'; journal := journal c ++ [stmt];
          var_result := Some message; var_success := Some success |})
  end.

End Gateway.
Import Gateway.

(** ** dao.py *)

Module SectionDAO.

(** [Section JOIN Course], with the count of Enrolled rows of the
    section left-joined in ([COALESCE(..., 0)]). *)
Definition get_section_by_id (c : Connection) (section_id : Z) : option SectionInfo :=
  let d := tables c in
  match Section d !! section_id with
  | Some sec =>
      match Course d !! CourseID sec with
      | Some crs =>
          Some {| si_section_id := section_id;
                  si_course_id := CourseID sec;
                  si_credits := Credits crs;
                  si_semester := Semester sec;
                  si_year := Year sec;
                  max_capacity := MaxCapacity sec;
                  current_enrollment := enrolled_count d section_id;
                  available_spots := MaxCapacity sec - enrolled_count d section_id;
                  si_time_slot := TimeSlot sec |}
      | None => None
      end
  | None => None
  end.

End SectionDAO.

Module EnrollmentDAO.

(** [float(x) if x else None] on a nullable numeric column *)
Definition float_if_truthy (x : option Q) : option Q :=
  match x with
  | Some v => if Qeq_bool v 0 then None else Some v
  | None => None
  end.

Definition enroll_student (c : Connection) (student_id : string) (section_id : Z)
  : (bool * string) * Connection :=
  let '(_, c1) := execute_update (CALL_sp_EnrollStudent student_id section_id) c in
  let success :=
    match var_success c1 with
    | Some v => v =? 1
    | None => false
    end in
  let message :=
    match var_result c1 with
    | Some m => if String.eqb m "" then "Unknown error" else m
    | None => "Unknown error"
    end in
  ((success, message), c1).

Definition drop_enrollment (c : Connection) (student_id : string) (section_id : Z)
  : bool * Connection :=
  let '(rows_affected, c1) :=
    execute_update (UPDATE_Status_Dropped student_id section_id) c in
  (0 <? rows_affected, c1).

Definition update_grade (c : Connection) (enrollment_id : Z) (final_grade : Q)
  : bool * Connection :=
  let grade_points := AppConfig.calculate_grade_points (Some final_grade) in
  let '(rows_affected, c1) :=
    execute_update (UPDATE_Grade final_grade grade_points final_grade enrollment_id) c in
  (0 <? rows_affected, c1).

(** [Enrollment JOIN Student JOIN Section JOIN Course
     WHERE e.StudentID = %s], narrowed to one term when both
    [semester] and [year] are truthy.  The rows are produced in table
    order; the ORDER BY clause is not modelled (the eligibility check
    below does not depend on the order of its input, see
    [eligibility_order_irrelevant]). *)
Definition get_student_enrollments (c : Connection) (student_id : string)
           (semester : option string) (year : option Z) : list EnrollmentInfo :=
  let d := tables c in
  let by_term := truthy_str semester && truthy_int year in
  omap (fun e =>
          if String.eqb (StudentID e) student_id
             && bool_decide (StudentID e ∈ Student d) then
            match Section d !! SectionID e with
            | Some sec =>
                match Course d !! CourseID sec with
                | Some crs =>
                    if negb by_term
                       || (opt_str_eqb (Some (Semester sec)) semester
                           && match year with
                              | Some y => Year sec =? y
                              | None => false
                              end)
                    then Some {| enrollment_id := EnrollmentID e;
                                 student_id := StudentID e;
                                 course_id := CourseID sec;
                                 credits := Credits crs;
                                 section_id := SectionID e;
                                 semester := Semester sec;
                                 year := Year sec;
                                 time_slot := TimeSlot sec;
                                 status := status_value (Status e);
                                 final_grade := float_if_truthy (FinalGrade e);
                                 grade_points := float_if_truthy (GradePoints e) |}
                    else None
                | None => None
                end
            | None => None
            end
          else None)
       (Enrollment d).

End EnrollmentDAO.

(** ** services.py *)

Module StudentService.

Definition enroll_in_course (c : Connection) (student_id : string) (section_id : Z)
  : (bool * string) * Connection :=
  EnrollmentDAO.enroll_student c student_id section_id.

Definition drop_course (c : Connection) (student_id : string) (section_id : Z)
  : (bool * string) * Connection :=
  let '(success, c1) := EnrollmentDAO.drop_enrollment c student_id section_id in
  if success then ((true, "Course dropped successfully"), c1)
  else ((false, "Failed to drop course - enrollment not found or already dropped"), c1).

Definition msg_not_found := "Section not found".
Definition msg_full := "Section is full".
Definition msg_credit_limit :=
  "Exceeds maximum credit limit (" +:+ pretty AppConfig.MAX_CREDITS_PER_SEMESTER +:+ ")".
Definition msg_below_minimum :=
  "Below minimum credit recommendation (" +:+ pretty AppConfig.MIN_CREDITS_PER_SEMESTER +:+ ")".
Definition msg_time_conflict := "Time conflict with existing enrollment".
Definition msg_already_enrolled := "Already enrolled in this section".

(** [e.status == 'Enrolled'] *)
Definition status_is_Enrolled (e : EnrollmentInfo) : bool :=
  String.eqb (status e) "Enrolled".

(** [sum(e.credits for e in current_enrollments if e.status == 'Enrolled')] *)
Definition current_credits (current_enrollments : list EnrollmentInfo) : Q :=
  fold_left Qplus (map credits (List.filter status_is_Enrolled current_enrollments)) 0%Q.

(** The condition of the time-conflict loop *)
Definition conflicts_with (section : SectionInfo) (enrollment : EnrollmentInfo) : bool :=
  status_is_Enrolled enrollment
  && truthy_str (time_slot enrollment) && truthy_str (si_time_slot section)
  && opt_str_eqb (time_slot enrollment) (si_time_slot section).

(** The part of [validate_enrollment_eligibility] that follows the two
    reads: the checks on the section and on the student's enrollments
    of the section's term. *)
Definition check_eligibility (section_id : Z) (section : SectionInfo)
           (current_enrollments : list EnrollmentInfo) : bool * list string :=
  let new_total_credits := (current_credits current_enrollments + si_credits section)%Q in
  if negb (Qle_bool new_total_credits (inject_Z AppConfig.MAX_CREDITS_PER_SEMESTER))
  then (false, [msg_credit_limit])
  else
    let warnings :=
      if negb (Qle_bool (inject_Z AppConfig.MIN_CREDITS_PER_SEMESTER) new_total_credits)
         && (length current_enrollments =? 0)%nat
      then [msg_below_minimum] else [] in
    if existsb (conflicts_with section) current_enrollments
    then (false, [msg_time_conflict])
    else if existsb (fun e => Models.section_id e =? section_id) current_enrollments
    then (false, [msg_already_enrolled])
    else (true, warnings).

Definition validate_enrollment_eligibility (c : Connection) (student_id : string)
           (section_id : Z) : bool * list string :=
  match SectionDAO.get_section_by_id c section_id with
  | None => (false, [msg_not_found])
  | Some section =>
      if available_spots section <=? 0 then (false, [msg_full])
      else
        let current_enrollments :=
          EnrollmentDAO.get_student_enrollments
            c student_id (Some (si_semester section)) (Some (si_year section)) in
        check_eligibility section_id section current_enrollments
  end.

End StudentService.

Module InstructorService.

Definition update_student_grade (c : Connection) (enrollment_id : Z) (final_grade : Q)
  : (bool * string) * Connection :=
  if negb (Qle_bool 0 final_grade && Qle_bool final_grade 100)
  then ((false, "Grade must be between 0 and 100"), c)
  else
    let '(success, c1) := EnrollmentDAO.update_grade c enrollment_id final_grade in
    if success then ((true, "Grade updated successfully"), c1)
    else ((false, "Failed to update grade - enrollment not found"), c1).

End InstructorService.

(** ** Derived notions used in the statements *)

(** What the UPDATE of [update_grade] does to one row. *)
Definition graded (enrollment_id : Z) (g : Q) (e : EnrollmentRow) : EnrollmentRow :=
  if EnrollmentID e =? enrollment_id
  then set_grade g (AppConfig.calculate_grade_points (Some g)) g e
  else e.

(** What the UPDATE of [drop_enrollment] does to one row. *)
Definition dropped (student_id : string) (section_id : Z) (e : EnrollmentRow) : EnrollmentRow :=
  if drop_matches student_id section_id e then set_Status DROPPED e else e.

(** The outcome of posting grade [g] on enrollment [eid], seen on a row
    [e] that carried this identifier before the call: [e] is replaced by
    the row with the grade, the grade points and the status written
    together, and every row that carries the identifier afterwards has
    status [st], final grade [g] and grade points [pts]. *)
Definition posted_as (c : Connection) (eid : Z) (e : EnrollmentRow) (g : Q)
           (st : EnrollmentStatus) (pts : Q) : Prop :=
  let rows' := Enrollment (tables (snd (InstructorService.update_student_grade c eid g))) in
  In (set_grade g (Some pts) g e) rows'
  /\ forall e', In e' rows' -> EnrollmentID e' = eid ->
                Status e' = st /\ FinalGrade e' = Some g /\ GradePoints e' = Some pts.

(** A row of the given student in the given section with status
    Enrolled: what the WHERE clause of the drop statement selects. *)
Definition enrolled_row (student_id : string) (section_id : Z) (e : EnrollmentRow) : Prop :=
  StudentID e = student_id /\ SectionID e = section_id /\ Status e = ENROLLED.


(** The student's enrollments of the term of [section], as
    [validate_enrollment_eligibility] reads them. *)
Definition current_of (c : Connection) (sid : string) (section : SectionInfo)
  : list EnrollmentInfo :=
  EnrollmentDAO.get_student_enrollments
    c sid (Some (si_semester section)) (Some (si_year section)).

(** The enrollment operations, as the services expose them. *)
Inductive Operation :=
| Enroll (student_id : string) (section_id : Z)
| Drop (student_id : string) (section_id : Z)
| PostGrade (enrollment_id : Z) (final_grade : Q).

Definition perform (op : Operation) (c : Connection) : Connection :=
  match op with
  | Enroll sid X => snd (StudentService.enroll_in_course c sid X)
  | Drop sid X => snd (StudentService.drop_course c sid X)
  | PostGrade eid g => snd (InstructorService.update_student_grade c eid g)
  end.

(** The state reached by a sequence of operations. *)
Definition run (ops : list Operation) (c : Connection) : Connection :=
  fold_left (fun c op => perform op c) ops c.

(** Every section holds at most [MaxCapacity] rows with status Enrolled. *)
Definition within_capacity (d : DB) : Prop :=
  forall X sec, Section d !! X = Some sec -> enrolled_count d X <= MaxCapacity sec.

(** The columns of an Enrollment row that identify it. *)
Definition row_key (e : EnrollmentRow) : Z * string * Z :=
  (EnrollmentID e, StudentID e, SectionID e).

(** [SELECT COUNT( * ) FROM Enrollment WHERE p] *)
Definition count_rows (p : EnrollmentRow -> bool) (d : DB) : Z :=
  Z.of_nat (length (List.filter p (Enrollment d))).

(** The Enrolled rows of section [X] that carry enrollment identifier
    [eid]. *)
Definition enrolled_as (eid X : Z) (e : EnrollmentRow) : bool :=
  (EnrollmentID e =? eid) && (SectionID e =? X) && is_Enrolled e.

(** The [EnrollmentInfo] the enrollment queries build from a row of
    [Enrollment] joined with its section and its course. *)
Definition as_info (e : EnrollmentRow) (sec : SectionRow) (crs : CourseRow)
  : EnrollmentInfo :=
  {| enrollment_id := EnrollmentID e;
     student_id := StudentID e;
     course_id := CourseID sec;
     credits := Credits crs;
     section_id := SectionID e;
     semester := Semester sec;
     year := Year sec;
     time_slot := TimeSlot sec;
     status := status_value (Status e);
     final_grade := EnrollmentDAO.float_if_truthy (FinalGrade e);
     grade_points := EnrollmentDAO.float_if_truthy (GradePoints e) |}.

(** The term condition of [get_student_enrollments]: it applies only
    when both arguments are truthy. *)
Definition term_ok (semester : option string) (year : option Z) (sec : SectionRow) : bool :=
  negb (truthy_str semester && truthy_int year)
  || (opt_str_eqb (Some (Semester sec)) semester
      && match year with
         | Some y => Year sec =? y
         | None => false
         end).

(** The whole grades 0, 1, ..., 100 *)
Definition integer_grades : list Z := map Z.of_nat (seq 0 101).

(** ** dao.py and services.py: the roster and the schedule *)

(** [EnrollmentDAO.get_section_enrollments]:
    [Enrollment JOIN Student JOIN Section JOIN Course
     WHERE e.SectionID = %s].  The rows are produced in table order; the
    ORDER BY clause is not modelled, and the callers below take the
    ordering as a parameter. *)
Definition get_section_enrollments (c : Connection) (section_id : Z) : list EnrollmentInfo :=
  let d := tables c in
  omap (fun e =>
          if (SectionID e =? section_id) && bool_decide (StudentID e ∈ Student d) then
            match Section d !! SectionID e with
            | Some sec =>
                match Course d !! CourseID sec with
                | Some crs => Some (as_info e sec crs)
                | None => None
                end
            | None => None
            end
          else None)
       (Enrollment d).

(** [InstructorService.get_section_roster] *)
Definition get_section_roster (c : Connection) (section_id : Z) : list EnrollmentInfo :=
  get_section_enrollments c section_id.

(** [StudentService.get_student_schedule] *)
Definition get_student_schedule (c : Connection) (student_id : string)
           (semester : option string) (year : option Z) : list EnrollmentInfo :=
  EnrollmentDAO.get_student_enrollments c student_id semester year.

(** ** ui.py: the menu actions that write

    Each action is modelled as a function of the values the user types
    and of the connection; it returns the messages printed through
    [print_success], [print_error], [print_warning] and [print_info], in
    order, and the connection.  Screen clearing, headers, listings and
    pauses are left out.  [order_by] stands for the ORDER BY clause of
    the query whose rows the action lists. *)

Inductive Printed :=
| print_success (message : string)
| print_error (message : string)
| print_warning (message : string)
| print_info (message : string).

(** [if not section_id]: nothing typed, or 0 *)
Definition falsy_int (n : option Z) : bool := negb (truthy_int n).

Module StudentMenu.

(** The semester of a month, as the menus compute it from the clock. *)
Definition current_semester (month : Z) : string :=
  if (1 <=? month) && (month <=? 5) then "Spring"
  else if (6 <=? month) && (month <=? 8) then "Summer"
  else "Fall".

(** [confirm] is the answer to "Do you want to continue?", asked only
    when the check returned warnings. *)
Definition enroll_in_course (c : Connection) (student_id : string)
           (section_id : option Z) (confirm : bool) : list Printed * Connection :=
  match section_id with
  | None => ([], c)
  | Some X =>
      if X =? 0 then ([], c)
      else
        let '(eligible, warnings) :=
          StudentService.validate_enrollment_eligibility c student_id X in
        if negb eligible then (map print_error warnings, c)
        else
          match warnings with
          | _ :: _ =>
              if negb confirm then (map print_warning warnings, c)
              else
                let '((success, message), c1) :=
                  StudentService.enroll_in_course c student_id X in
                (map print_warning warnings
                   ++ [if success then print_success message else print_error message],
                 c1)
          | [] =>
              let '((success, message), c1) :=
                StudentService.enroll_in_course c student_id X in
              ([if success then print_success message else print_error message], c1)
          end
  end.

(** [typed] is the number typed at "Select course to drop", [None] when
    the text is not a number; [confirm] is the answer to "Are you sure",
    asked only for a valid selection. *)
Definition drop_course (order_by : list EnrollmentInfo -> list EnrollmentInfo)
           (c : Connection) (student_id : string) (month current_year : Z)
           (typed : option Z) (confirm : bool) : list Printed * Connection :=
  let semester := current_semester month in
  let enrollments :=
    order_by (get_student_schedule c student_id (Some semester) (Some current_year)) in
  let enrolled_courses :=
    List.filter (fun e => String.eqb (status e) "Enrolled") enrollments in
  match enrolled_courses with
  | [] => ([print_info "No enrolled courses to drop"], c)
  | _ :: _ =>
      match typed with
      | None => ([print_error "Please enter a valid number"], c)
      | Some n =>
          let choice := n - 1 in
          if (0 <=? choice) && (choice <? Z.of_nat (length enrolled_courses)) then
            match nth_error enrolled_courses (Z.to_nat choice) with
            | Some selected_enrollment =>
                if confirm then
                  let '((success, message), c1) :=
                    StudentService.drop_course
                      c student_id (Models.section_id selected_enrollment) in
                  ([if success then print_success message else print_error message], c1)
                else ([], c)
            | None => ([], c)
            end
          else ([print_error "Invalid selection"], c)
      end
  end.

End StudentMenu.

Module InstructorMenu.

(** [typed] is the number typed at "Select student to update grade",
    [None] when the text is not a number; [new_grade] is the grade
    typed, [None] when the entry is cancelled. *)
Definition update_grades (order_by : list EnrollmentInfo -> list EnrollmentInfo)
           (c : Connection) (section_id : option Z) (typed : option Z)
           (new_grade : option Q) : list Printed * Connection :=
  if falsy_int section_id then ([], c)
  else
    match section_id with
    | None => ([], c)
    | Some X =>
        let roster := order_by (get_section_roster c X) in
        match roster with
        | [] => ([print_info "No students enrolled in this section"], c)
        | _ :: _ =>
            let enrolled_students :=
              List.filter (fun e => String.eqb (status e) "Enrolled"
                                    || String.eqb (status e) "Completed") roster in
            match typed with
            | None => ([print_error "Please enter a valid number"], c)
            | Some n =>
                let choice := n - 1 in
                if (0 <=? choice) && (choice <? Z.of_nat (length enrolled_students)) then
                  match nth_error enrolled_students (Z.to_nat choice) with
                  | Some selected_enrollment =>
                      match new_grade with
                      | Some g =>
                          let '((success, message), c1) :=
                            InstructorService.update_student_grade
                              c (enrollment_id selected_enrollment) g in
                          ([if success then print_success message
                            else print_error message], c1)
                      | None => ([], c)
                      end
                  | None => ([], c)
                  end
                else ([print_error "Invalid selection"], c)
            end
        end
    end.

End InstructorMenu.

(** ** Accounts and the session service

    The account side of [models.py], [dao.py] and [services.py].  The
    tables [User], [Student] and [Instructor] are lists of rows in table
    order, with the columns the session service reads.  Three things
    the Python code relies on lie outside it and are parameters,
    gathered in [Environment]: the store's comparison of text values in
    WHERE clauses (a collation), the password check of the bcrypt
    library, which answers or raises, and the store's clock. *)

Record Environment := {
  text_eq : string -> string -> bool;
  checkpw : string -> string -> option bool;
  NOW : Z
}.

(** What a DAO call produces: a value, or the exception raised by
    [_handle_db_error]. *)
Inductive Outcome (A : Type) :=
| Returned (value : A)
| Raised.
Arguments Returned {A} value.
Arguments Raised {A}.

Module AccountModels.

Inductive UserType := STUDENT | INSTRUCTOR | ADMIN.
Inductive UserStatus := ACTIVE | INACTIVE | PENDING.
Inductive Gender := MALE | FEMALE | OTHER.

Definition UserType_value (t : UserType) : string :=
  match t with
  | STUDENT => "Student"
  | INSTRUCTOR => "Instructor"
  | ADMIN => "Admin"
  end.

Definition UserStatus_value (s : UserStatus) : string :=
  match s with
  | ACTIVE => "Active"
  | INACTIVE => "Inactive"
  | PENDING => "Pending"
  end.

(** [UserType(text)]: the member with that value; [None] stands for the
    ValueError of an unknown value. *)
Definition UserType_of (v : string) : option UserType :=
  if String.eqb v "Student" then Some STUDENT
  else if String.eqb v "Instructor" then Some INSTRUCTOR
  else if String.eqb v "Admin" then Some ADMIN
  else None.

Definition UserStatus_of (v : string) : option UserStatus :=
  if String.eqb v "Active" then Some ACTIVE
  else if String.eqb v "Inactive" then Some INACTIVE
  else if String.eqb v "Pending" then Some PENDING
  else None.

Definition Gender_of (v : string) : option Gender :=
  if String.eqb v "M" then Some MALE
  else if String.eqb v "F" then Some FEMALE
  else if String.eqb v "Other" then Some OTHER
  else None.

Definition UserType_eqb (a b : UserType) : bool :=
  match a, b with
  | STUDENT, STUDENT | INSTRUCTOR, INSTRUCTOR | ADMIN, ADMIN => true
  | _, _ => false
  end.

(** The dataclasses, with the fields the session service fills or
    reads; times are abstract instants. *)
Record User := {
  user_id : Z;
  username : string;
  user_type : UserType;
  status : UserStatus;
  last_login_date : option Z
}.

Record Student := {
  student_id : string;
  s_user_id : Z;
  s_name : string;
  gender : option Gender;
  college : option string;
  major : option string
}.

Record Instructor := {
  instructor_id : string;
  i_user_id : Z;
  i_name : string;
  department : option string;
  title : option string
}.

End AccountModels.

Module AccountStore.

Record UserRow := {
  UserID : Z;
  Username : string;
  Password : string;
  UserType : string;
  Status : string;
  LastLoginDate : option Z
}.

Record StudentRow := {
  StudentID : string;
  s_UserID : Z;
  s_Name : string;
  Gender : option string;
  College : option string;
  Major : option string
}.

Record InstructorRow := {
  InstructorID : string;
  i_UserID : Z;
  i_Name : string;
  Department : option string;
  Title : option string
}.

Record AccountDB := {
  User : list UserRow;
  Student : list StudentRow;
  Instructor : list InstructorRow
}.

(** [UPDATE User SET LastLoginDate = NOW() WHERE UserID = %s] *)
Definition stamp (env : Environment) (user_id : Z) (u : UserRow) : UserRow :=
  if UserID u =? user_id
  then {| UserID := UserID u; Username := Username u; Password := Password u;
          UserType := UserType u; Status := Status u;
          LastLoginDate := Some (NOW env) |}
  else u.

End AccountStore.

Module UserDAO.

Import AccountStore.

(** The write of [update_last_login]; the method swallows its own
    exceptions. *)
Definition update_last_login (env : Environment) (d : AccountDB) (user_id : Z) : AccountDB :=
  {| User := map (stamp env user_id) (User d);
     Student := Student d; Instructor := Instructor d |}.

(** [WHERE Username = %s AND Status = 'Active'], first row *)
Definition active_row (env : Environment) (d : AccountDB) (username : string)
  : option UserRow :=
  List.find (fun u => text_eq env (Username u) username && text_eq env (Status u) "Active")
            (User d).

Definition authenticate_user (env : Environment) (d : AccountDB)
           (username password : string)
  : Outcome (option AccountModels.User) * AccountDB :=
  match active_row env d username with
  | None => (Returned None, d)
  | Some result =>
      match checkpw env password (Password result) with
      | None => (Raised, d)
      | Some false => (Returned None, d)
      | Some true =>
          let d1 := update_last_login env d (UserID result) in
          match AccountModels.UserType_of (UserType result),
                AccountModels.UserStatus_of (Status result) with
          | Some t, Some st =>
              (Returned (Some {| AccountModels.user_id := UserID result;
                                 AccountModels.username := Username result;
                                 AccountModels.user_type := t;
                                 AccountModels.status := st;
                                 AccountModels.last_login_date := LastLoginDate result |}),
               d1)
          | _, _ => (Raised, d1)
          end
      end
  end.

End UserDAO.

Module StudentDAO.

Import AccountStore.

(** [WHERE s.UserID = %s], first row;
    [Gender(result['Gender']) if result['Gender'] else None] *)
Definition get_student_by_user_id (d : AccountDB) (user_id : Z)
  : Outcome (option AccountModels.Student) :=
  match List.find (fun s => s_UserID s =? user_id) (Student d) with
  | None => Returned None
  | Some result =>
      let build g :=
        Returned (Some {| AccountModels.student_id := StudentID result;
                          AccountModels.s_user_id := s_UserID result;
                          AccountModels.s_name := s_Name result;
                          AccountModels.gender := g;
                          AccountModels.college := College result;
                          AccountModels.major := Major result |}) in
      if truthy_str (Gender result) then
        match Gender result with
        | Some code =>
            match AccountModels.Gender_of code with
            | Some g => build (Some g)
            | None => Raised
            end
        | None => build None
        end
      else build None
  end.

End StudentDAO.

Module InstructorDAO.

Import AccountStore.

(** [WHERE i.UserID = %s], first row *)
Definition get_instructor_by_user_id (d : AccountDB) (user_id : Z)
  : Outcome (option AccountModels.Instructor) :=
  match List.find (fun i => i_UserID i =? user_id) (Instructor d) with
  | None => Returned None
  | Some result =>
      Returned (Some {| AccountModels.instructor_id := InstructorID result;
                        AccountModels.i_user_id := i_UserID result;
                        AccountModels.i_name := i_Name result;
                        AccountModels.department := Department result;
                        AccountModels.title := Title result |})
  end.

End InstructorDAO.

(** The values of the dict [get_current_user_info] returns. *)
Inductive InfoValue :=
| info_int (n : Z)
| info_str (s : string)
| info_none.

Definition info_opt (s : option string) : InfoValue :=
  match s with
  | Some v => info_str v
  | None => info_none
  end.

Module AuthenticationService.

Import AccountModels.

(** The attributes [current_user], [current_student] and
    [current_instructor] of the service object. *)
Record Session := {
  current_user : option User;
  current_student : option Student;
  current_instructor : option Instructor
}.

(** The state [__init__] and [logout] set. *)
Definition logged_out : Session :=
  {| current_user := None; current_student := None; current_instructor := None |}.

Definition login (env : Environment) (s : Session) (d : AccountStore.AccountDB)
           (username password : string)
  : (bool * string * option User) * Session * AccountStore.AccountDB :=
  match UserDAO.authenticate_user env d username password with
  | (Raised, d1) => ((false, "Login failed due to system error", None), s, d1)
  | (Returned None, d1) => ((false, "Invalid username or password", None), s, d1)
  | (Returned (Some user), d1) =>
      let s1 := {| current_user := Some user;
                   current_student := current_student s;
                   current_instructor := current_instructor s |} in
      let welcome := (true, "Welcome, " +:+ username +:+ "!", Some user) in
      match user_type user with
      | STUDENT =>
          match StudentDAO.get_student_by_user_id d1 (user_id user) with
          | Raised => ((false, "Login failed due to system error", None), s1, d1)
          | Returned st =>
              (welcome,
               {| current_user := Some user; current_student := st;
                  current_instructor := current_instructor s |},
               d1)
          end
      | INSTRUCTOR =>
          match InstructorDAO.get_instructor_by_user_id d1 (user_id user) with
          | Raised => ((false, "Login failed due to system error", None), s1, d1)
          | Returned ins =>
              (welcome,
               {| current_user := Some user; current_student := current_student s;
                  current_instructor := ins |},
               d1)
          end
      | ADMIN => (welcome, s1, d1)
      end
  end.

Definition logout (s : Session) : Session := logged_out.

Definition is_authenticated (s : Session) : bool :=
  match current_user s with
  | Some _ => true
  | None => false
  end.

(** [self.current_user and self.current_user.user_type == role]: [None]
    when nobody is logged in, a boolean otherwise. *)
Definition has_role (s : Session) (role : UserType) : option bool :=
  match current_user s with
  | Some u => Some (UserType_eqb (user_type u) role)
  | None => None
  end.

Definition get_current_user_info (s : Session) : gmap string InfoValue :=
  match current_user s with
  | None => ∅
  | Some u =>
      let info : gmap string InfoValue :=
        <["status" := info_str (UserStatus_value (status u))]>
          (<["user_type" := info_str (UserType_value (user_type u))]>
             (<["username" := info_str (username u)]>
                (<["user_id" := info_int (user_id u)]> ∅))) in
      match current_student s, current_instructor s with
      | Some st, _ =>
          <["major" := info_opt (major st)]>
            (<["college" := info_opt (college st)]>
               (<["name" := info_str (s_name st)]>
                  (<["student_id" := info_str (student_id st)]> info)))
      | None, Some ins =>
          <["title" := info_opt (title ins)]>
            (<["department" := info_opt (department ins)]>
               (<["name" := info_str (i_name ins)]>
                  (<["instructor_id" := info_str (instructor_id ins)]> info)))
      | None, None => info
      end
  end.

End AuthenticationService.

Module SampleAccounts.

Import AccountStore.

(** An environment with exact text comparison, a password check that
    accepts the stored text itself (and raises on an empty hash), and
    the clock at instant 1000. *)
Definition env : Environment :=
  {| text_eq := String.eqb;
     checkpw := fun password hash =>
                  if String.eqb hash "" then None else Some (String.eqb password hash);
     NOW := 1000 |}.

Definition accounts : AccountDB :=
  {| User :=
       [ {| UserID := 1; Username := "alice"; Password := "pw-alice";
            UserType := "Student"; Status := "Active"; LastLoginDate := None |};
         {| UserID := 2; Username := "bob"; Password := "pw-bob";
            UserType := "Instructor"; Status := "Active"; LastLoginDate := Some 7 |};
         {| UserID := 3; Username := "carol"; Password := "pw-carol";
            UserType := "Student"; Status := "Inactive"; LastLoginDate := None |};
         {| UserID := 4; Username := "dave"; Password := "pw-dave";
            UserType := "Student"; Status := "Active"; LastLoginDate := None |};
         {| UserID := 5; Username := "erin"; Password := "pw-erin";
            UserType := "Registrar"; Status := "Active"; LastLoginDate := None |} ];
     Student :=
       [ {| StudentID := "S001"; s_UserID := 1; s_Name := "Alice"; Gender := Some "F";
            College := Some "ENG"; Major := None |};
         {| StudentID := "S004"; s_UserID := 4; s_Name := "Dave"; Gender := Some "X";
            College := None; Major := None |} ];
     Instructor :=
       [ {| InstructorID := "I001"; i_UserID := 2; i_Name := "Bob";
            Department := Some "ENG"; Title := Some "Professor" |} ] |}.

End SampleAccounts.

(** ** Sample data

    A small catalogue for one term, used to run the definitions on
    concrete inputs. *)

Module Sample.

Definition courses : gmap string CourseRow :=
  list_to_map
    [ ("CS101", {| Credits := 4.0 |}); ("MA201", {| Credits := 3.0 |});
      ("PH110", {| Credits := 10.0 |}); ("EN120", {| Credits := 10.0 |});
      ("CH130", {| Credits := 10.0 |}); ("BI140", {| Credits := 8.0 |}) ]%Q.

Definition section (course : string) (capacity : Z) (slot : option string) : SectionRow :=
  {| CourseID := course; Semester := "Fall"; Year := 2024;
     MaxCapacity := capacity; TimeSlot := slot |}.

Definition sections : gmap Z SectionRow :=
  list_to_map
    [ (1, section "CS101" 30 (Some "MWF 09:00-09:50"));
      (2, section "MA201" 30 (Some "MWF 09:00-09:50"));
      (3, section "PH110" 30 (Some "TTh 10:00-11:15"));
      (4, section "EN120" 30 (Some "MWF 11:00-11:50"));
      (5, section "CH130" 30 (Some "TTh 13:00-14:15"));
      (6, section "BI140" 30 (Some "MWF 14:00-14:50"));
      (7, section "CS101" 1 (Some "TTh 08:00-09:15"));
      (8, section "MA201" 30 None);
      (9, section "MA201" 1 (Some "MWF 09:00-09:50")) ].

Definition row (id : Z) (student : string) (section_id : Z) (st : EnrollmentStatus)
  : EnrollmentRow :=
  {| EnrollmentID := id; StudentID := student; SectionID := section_id;
     Status := st; FinalGrade := None; GradePoints := None |}.

Definition store (rows : list EnrollmentRow) : Connection :=
  connect {| Student := {[ "S001"; "S002" ]}; Course := courses;
             Section := sections; Enrollment := rows |}.

(** S001 is enrolled in section 1. *)
Definition one_enrolled : Connection := store [row 1 "S001" 1 ENROLLED].

(** S001 dropped section 1 and holds no other row. *)
Definition one_dropped : Connection := store [row 1 "S001" 1 DROPPED].


(** S001 carries 38 credits; S002 holds the only seat of section 7. *)
Definition heavy_load : Connection :=
  store [ row 1 "S001" 3 ENROLLED; row 2 "S001" 4 ENROLLED;
          row 3 "S001" 5 ENROLLED; row 4 "S001" 6 ENROLLED;
          row 5 "S002" 7 ENROLLED ].


Definition nobody : Connection := store [].

(** The rows [get_student_enrollments] returns for the sample term. *)
Definition term_rows (c : Connection) (student : string) : list EnrollmentInfo :=
  EnrollmentDAO.get_student_enrollments c student (Some "Fall") (Some 2024).

End Sample.


(** * Properties *)

Example grade_points_100 :
  AppConfig.calculate_grade_points (Some 100%Q) = Some 4.0%Q.
Proof. reflexivity. Qed.

Example grade_points_75 :
  AppConfig.calculate_grade_points (Some 75%Q) = Some 1.7%Q.
Proof. reflexivity. Qed.

Example grade_points_absent :
  AppConfig.calculate_grade_points None = None.
Proof. reflexivity. Qed.


(** ** The grade scale *)

Section GradeScale.

Import AppConfig.

Lemma in_range_spec (lo hi : Z) (g : Q) :
  in_range lo hi g = true <-> (inject_Z lo <= g /\ g <= inject_Z hi)%Q.
Proof.
  unfold in_range. rewrite andb_true_iff, !Qle_bool_iff. tauto.
Qed.

Lemma in_range_false (lo hi : Z) (g : Q) :
  in_range lo hi g = false <-> ~ (inject_Z lo <= g /\ g <= inject_Z hi)%Q.
Proof.
  rewrite <- in_range_spec. destruct (in_range lo hi g); split; congruence.
Qed.

(** The function always returns a value on a present grade. *)
Lemma calculate_grade_points_total (g : Q) :
  exists p, calculate_grade_points (Some g) = Some p.
Proof. eexists. reflexivity. Qed.

Ltac skip_entry :=
  match goal with
  | |- context [in_range ?lo ?hi ?g] =>
      let E := fresh "E" in
      destruct (in_range lo hi g) eqn:E;
      [ apply in_range_spec in E; unfold inject_Z in E; simpl in E; try lra | ]
  end.

(** Below 65 every grade yields 0.0: it is either caught by the last
    entry or falls through the table. *)
Lemma scan_below_65 (g : Q) :
  (g < 65)%Q -> scan_scale GRADE_SCALE g = 0.0%Q.
Proof.
  intros Hg. unfold GRADE_SCALE. simpl.
  repeat skip_entry; reflexivity.
Qed.

End GradeScale.

(** ** Grade posting *)

Section GradePosting.

Import AppConfig InstructorService.

Lemma grade_check_spec (g : Q) :
  Qle_bool 0 g && Qle_bool g 100 = true <-> (0 <= g /\ g <= 100)%Q.
Proof. rewrite andb_true_iff, !Qle_bool_iff. tauto. Qed.

Lemma update_student_grade_rejects (c : Connection) (eid : Z) (g : Q) :
  ~ (0 <= g /\ g <= 100)%Q ->
  update_student_grade c eid g = ((false, "Grade must be between 0 and 100"), c).
Proof.
  intros Hout. unfold update_student_grade.
  destruct (Qle_bool 0 g && Qle_bool g 100) eqn:E; [| reflexivity].
  apply grade_check_spec in E. contradiction.
Qed.

Lemma update_student_grade_state (c : Connection) (eid : Z) (g : Q) :
  (0 <= g /\ g <= 100)%Q ->
  snd (update_student_grade c eid g) =
  snd (execute_update (UPDATE_Grade g (calculate_grade_points (Some g)) g eid) c).
Proof.
  intros Hin. unfold update_student_grade, EnrollmentDAO.update_grade.
  apply grade_check_spec in Hin. rewrite Hin. simpl.
  destruct (0 <? _); reflexivity.
Qed.

Lemma update_student_grade_rows (c : Connection) (eid : Z) (g : Q) :
  (0 <= g /\ g <= 100)%Q ->
  Enrollment (tables (snd (update_student_grade c eid g))) =
  map (graded eid g) (Enrollment (tables c)).
Proof.
  intros Hin. rewrite update_student_grade_state by assumption. reflexivity.
Qed.

Lemma update_student_grade_journal (c : Connection) (eid : Z) (g : Q) :
  (0 <= g /\ g <= 100)%Q ->
  journal (snd (update_student_grade c eid g)) =
  journal c ++ [UPDATE_Grade g (calculate_grade_points (Some g)) g eid].
Proof.
  intros Hin. rewrite update_student_grade_state by assumption. reflexivity.
Qed.

(** A row that carries the posted identifier after the update is the
    image of a row that carried it before. *)
Lemma graded_row_inv (eid : Z) (g : Q) (rows : list EnrollmentRow) (e' : EnrollmentRow) :
  In e' (map (graded eid g) rows) -> EnrollmentID e' = eid ->
  exists e, In e rows /\ EnrollmentID e = eid
            /\ e' = set_grade g (calculate_grade_points (Some g)) g e.
Proof.
  intros Hin Hid. apply in_map_iff in Hin as (e & He & Hine).
  exists e. unfold graded in He.
  destruct (EnrollmentID e =? eid) eqn:E.
  - apply Z.eqb_eq in E. auto.
  - subst e'. apply Z.eqb_neq in E. contradiction.
Qed.

Lemma graded_row_intro (eid : Z) (g : Q) (rows : list EnrollmentRow) (e : EnrollmentRow) :
  In e rows -> EnrollmentID e = eid ->
  In (set_grade g (calculate_grade_points (Some g)) g e) (map (graded eid g) rows).
Proof.
  intros Hin Hid. apply in_map_iff. exists e. split; [| assumption].
  unfold graded. rewrite <- Hid, Z.eqb_refl. reflexivity.
Qed.

Lemma set_grade_status_completed (g : Q) (p : option Q) (e : EnrollmentRow) :
  Status (set_grade g p g e) = COMPLETED <-> (60 <= g)%Q.
Proof.
  simpl. rewrite <- Qle_bool_iff.
  destruct (Qle_bool 60 g); split; congruence.
Qed.

Lemma set_grade_status_failed (g : Q) (p : option Q) (e : EnrollmentRow) :
  Status (set_grade g p g e) = FAILED <-> ~ (60 <= g)%Q.
Proof.
  simpl. rewrite <- Qle_bool_iff.
  destruct (Qle_bool 60 g); split; congruence.
Qed.

End GradePosting.

(** ** Claims on the grade scale and on grade posting *)

Section GradeClaims.

Import AppConfig InstructorService.

Lemma integer_grades_spec (a : Z) : In a integer_grades <-> 0 <= a <= 100.
Proof.
  unfold integer_grades. rewrite in_map_iff. split.
  - intros (n & <- & Hn). apply in_seq in Hn. lia.
  - intros Ha. exists (Z.to_nat a). split; [lia |]. apply in_seq. lia.
Qed.

Lemma integer_grades_checked :
  forallb (fun a =>
             forallb (fun b =>
                        negb (a <=? b)
                        || Qle_bool (scan_scale GRADE_SCALE (inject_Z a))
                                    (scan_scale GRADE_SCALE (inject_Z b)))
                     integer_grades)
          integer_grades = true.
Proof. vm_compute. reflexivity. Qed.

(** On whole grades the scale is monotone: the table covers every
    integer of [0,100]. *)
Lemma grade_points_monotone_on_integers (a b : Z) :
  0 <= a -> a <= b -> b <= 100 ->
  (scan_scale GRADE_SCALE (inject_Z a) <= scan_scale GRADE_SCALE (inject_Z b))%Q.
Proof.
  intros H0 Hab Hb.
  pose proof integer_grades_checked as Hall.
  rewrite forallb_forall in Hall.
  specialize (Hall a (proj2 (integer_grades_spec a) ltac:(lia))).
  rewrite forallb_forall in Hall.
  specialize (Hall b (proj2 (integer_grades_spec b) ltac:(lia))).
  apply orb_true_iff in Hall as [Hlt | Hle].
  - apply negb_true_iff, Z.leb_gt in Hlt. lia.
  - apply Qle_bool_iff. exact Hle.
Qed.

(** C3 (defect in the code).  The claim asks for monotonicity over all
    of [0,100], non-integer grades included.  The table only lists
    integer end points, so a grade strictly between two entries falls
    through to the final [return 0.0]: 96 earns 3.7 points while 96.5
    earns 0.0. *)
Theorem grade_scale_gap_breaks_monotonicity :
  (0 <= 96 /\ 96 < 96.5 /\ 96.5 <= 100)%Q
  /\ calculate_grade_points (Some 96%Q) = Some 3.7%Q
  /\ calculate_grade_points (Some 96.5%Q) = Some 0.0%Q
  /\ ~ (3.7 <= 0.0)%Q.
Proof.
  repeat split; try reflexivity; try discriminate.
  intros H. vm_compute in H. apply H. reflexivity.
Qed.

Lemma posted_as_intro (c : Connection) (eid : Z) (e : EnrollmentRow) (g pts : Q)
      (st : EnrollmentStatus) :
  (0 <= g /\ g <= 100)%Q ->
  scan_scale GRADE_SCALE g = pts ->
  (if Qle_bool 60 g then COMPLETED else FAILED) = st ->
  In e (Enrollment (tables c)) -> EnrollmentID e = eid ->
  posted_as c eid e g st pts.
Proof.
  intros Hrange Hpts Hst Hin Hid. unfold posted_as.
  rewrite update_student_grade_rows by assumption. split.
  - rewrite <- Hpts. apply (graded_row_intro eid g _ e Hin Hid).
  - intros e' Hin' Hid'.
    destruct (graded_row_inv eid g _ e' Hin' Hid') as (e0 & _ & _ & ->).
    cbn [set_grade Status FinalGrade GradePoints calculate_grade_points].
    rewrite Hst, Hpts. auto.
Qed.

(** C2 (as stated): on the sample store, posting 75 on enrollment 1
    does not leave it with 3.0 grade points. *)
Lemma posting_75_is_not_worth_3_points :
  ~ (forall e',
        In e' (Enrollment (tables (snd (update_student_grade Sample.one_enrolled 1 75)))) ->
        EnrollmentID e' = 1 ->
        Status e' = COMPLETED /\ exists p, GradePoints e' = Some p /\ (p == 3.0)%Q).
Proof.
  intros H.
  destruct (H (set_grade 75 (Some 1.7%Q) 75 (Sample.row 1 "S001" 1 ENROLLED)))
    as (_ & p & Hp & Heq).
  - left. reflexivity.
  - reflexivity.
  - simpl in Hp. injection Hp as <-. vm_compute in Heq. discriminate.
Qed.

(** C2 (amended).  Posting 75 on an existing enrollment sets its
    status to Completed and its grade points to 1.7 (the table entry
    73-76); posting 55 sets its status to Failed and its grade points
    to 0.0. *)
Theorem posting_75_completes_and_55_fails (c : Connection) (eid : Z) (e : EnrollmentRow) :
  In e (Enrollment (tables c)) -> EnrollmentID e = eid ->
  posted_as c eid e 75 COMPLETED 1.7 /\ posted_as c eid e 55 FAILED 0.0.
Proof.
  intros Hin Hid. split; apply posted_as_intro; try assumption;
    try reflexivity; split; discriminate.
Qed.

Lemma posting_75_completes_and_55_fails_witness :
  posted_as Sample.one_enrolled 1 (Sample.row 1 "S001" 1 ENROLLED) 75 COMPLETED 1.7
  /\ posted_as Sample.one_enrolled 1 (Sample.row 1 "S001" 1 ENROLLED) 55 FAILED 0.0.
Proof.
  apply (posting_75_completes_and_55_fails
           Sample.one_enrolled 1 (Sample.row 1 "S001" 1 ENROLLED)).
  - left. reflexivity.
  - reflexivity.
Defined.

(** C10.  For every final grade [g] with [60 <= g <= 64] posted on an
    existing enrollment, the status becomes Completed and the grade
    points become 0.0: the pass mark 60 lies below 65, the lowest
    grade with non-zero points. *)
Theorem pass_below_65_is_completed_with_zero_points
        (c : Connection) (eid : Z) (e : EnrollmentRow) (g : Q) :
  In e (Enrollment (tables c)) -> EnrollmentID e = eid ->
  (60 <= g)%Q -> (g <= 64)%Q ->
  posted_as c eid e g COMPLETED 0.0.
Proof.
  intros Hin Hid Hlo Hhi. apply posted_as_intro; try assumption.
  - split; lra.
  - apply scan_below_65. lra.
  - apply Qle_bool_iff in Hlo. rewrite Hlo. reflexivity.
Qed.

Lemma pass_below_65_is_completed_with_zero_points_witness :
  posted_as Sample.one_enrolled 1 (Sample.row 1 "S001" 1 ENROLLED) 62.5 COMPLETED 0.0.
Proof.
  apply (pass_below_65_is_completed_with_zero_points
           Sample.one_enrolled 1 (Sample.row 1 "S001" 1 ENROLLED) 62.5).
  - left. reflexivity.
  - reflexivity.
  - discriminate.
  - discriminate.
Defined.

End GradeClaims.

(** C4.  A final grade outside [0,100] is refused and the connection
    is returned as it was: no statement reaches the store.  A grade in
    [0,100] issues exactly one UPDATE, which carries the grade, its
    grade points and the status together; every row with the posted
    identifier ends with status Completed if and only if the grade is at
    least 60, and Failed otherwise. *)
Theorem update_student_grade_checks_then_writes_once (c : Connection) (eid : Z) (g : Q) :
  (~ (0 <= g /\ g <= 100)%Q ->
   InstructorService.update_student_grade c eid g
   = ((false, "Grade must be between 0 and 100"), c))
  /\ ((0 <= g /\ g <= 100)%Q ->
      let c' := snd (InstructorService.update_student_grade c eid g) in
      let points := AppConfig.calculate_grade_points (Some g) in
      journal c' = journal c ++ [UPDATE_Grade g points g eid]
      /\ Enrollment (tables c') = map (graded eid g) (Enrollment (tables c))
      /\ (forall e, In e (Enrollment (tables c)) -> EnrollmentID e = eid ->
                    In (set_grade g points g e) (Enrollment (tables c')))
      /\ (forall e', In e' (Enrollment (tables c')) -> EnrollmentID e' = eid ->
                     FinalGrade e' = Some g /\ GradePoints e' = points
                     /\ (Status e' = COMPLETED <-> (60 <= g)%Q)
                     /\ (Status e' = FAILED <-> ~ (60 <= g)%Q))).
Proof.
  split.
  - apply update_student_grade_rejects.
  - intros Hrange c' points. subst c' points.
    rewrite update_student_grade_journal, update_student_grade_rows by assumption.
    repeat split.
    + intros e Hin Hid. apply graded_row_intro; assumption.
    + destruct (graded_row_inv eid g _ e' H H0) as (e0 & _ & _ & ->). reflexivity.
    + destruct (graded_row_inv eid g _ e' H H0) as (e0 & _ & _ & ->). reflexivity.
    + destruct (graded_row_inv eid g _ e' H H0) as (e0 & _ & _ & ->).
      apply set_grade_status_completed.
    + destruct (graded_row_inv eid g _ e' H H0) as (e0 & _ & _ & ->).
      apply set_grade_status_completed.
    + destruct (graded_row_inv eid g _ e' H H0) as (e0 & _ & _ & ->).
      apply set_grade_status_failed.
    + destruct (graded_row_inv eid g _ e' H H0) as (e0 & _ & _ & ->).
      apply set_grade_status_failed.
Qed.

Lemma update_student_grade_checks_then_writes_once_witness :
  InstructorService.update_student_grade Sample.one_enrolled 1 150
  = ((false, "Grade must be between 0 and 100"), Sample.one_enrolled)
  /\ journal (snd (InstructorService.update_student_grade Sample.one_enrolled 1 75))
     = [UPDATE_Grade 75 (Some 1.7%Q) 75 1].
Proof.
  split.
  - apply (proj1 (update_student_grade_checks_then_writes_once Sample.one_enrolled 1 150)).
    intros [_ H]. apply H. reflexivity.
  - apply (proj2 (update_student_grade_checks_then_writes_once Sample.one_enrolled 1 75)).
    split; discriminate.
Defined.

(** ** Dropping *)

Section Dropping.

Import StudentService.

Lemma status_eqb_eq (a b : EnrollmentStatus) : status_eqb a b = true <-> a = b.
Proof. destruct a, b; simpl; split; congruence. Qed.

Lemma drop_matches_spec (sid : string) (X : Z) (e : EnrollmentRow) :
  drop_matches sid X e = true <-> enrolled_row sid X e.
Proof.
  unfold drop_matches, enrolled_row, is_Enrolled.
  rewrite !andb_true_iff, String.eqb_eq, Z.eqb_eq, status_eqb_eq. tauto.
Qed.

Lemma drop_matches_dropped (sid : string) (X : Z) (e : EnrollmentRow) :
  drop_matches sid X (dropped sid X e) = false.
Proof.
  unfold dropped. destruct (drop_matches sid X e) eqn:E; [| exact E].
  unfold drop_matches, is_Enrolled. simpl. apply andb_false_r.
Qed.

Lemma positive_count_existsb {A : Type} (f : A -> bool) (l : list A) :
  (0 <? Z.of_nat (length (List.filter f l))) = existsb f l.
Proof.
  induction l as [| a l IH]; simpl; [reflexivity |].
  destruct (f a); simpl; [| exact IH].
  apply Z.ltb_lt. lia.
Qed.

Lemma map_dropped_id (sid : string) (X : Z) (rows : list EnrollmentRow) :
  (forall e, In e rows -> ~ enrolled_row sid X e) ->
  map (dropped sid X) rows = rows.
Proof.
  intros Hnone. rewrite <- (map_id rows) at 2. apply map_ext_in.
  intros e He. unfold dropped.
  destruct (drop_matches sid X e) eqn:E; [| reflexivity].
  apply drop_matches_spec in E. destruct (Hnone e He E).
Qed.

Lemma with_Enrollment_same (d : DB) : with_Enrollment (Enrollment d) d = d.
Proof. destruct d. reflexivity. Qed.

Lemma drop_course_rows (c : Connection) (sid : string) (X : Z) :
  Enrollment (tables (snd (drop_course c sid X)))
  = map (dropped sid X) (Enrollment (tables c)).
Proof.
  unfold drop_course, EnrollmentDAO.drop_enrollment. simpl.
  destruct (0 <? _); reflexivity.
Qed.

Lemma drop_course_tables (c : Connection) (sid : string) (X : Z) :
  tables (snd (drop_course c sid X))
  = with_Enrollment (map (dropped sid X) (Enrollment (tables c))) (tables c).
Proof.
  unfold drop_course, EnrollmentDAO.drop_enrollment. simpl.
  destruct (0 <? _); reflexivity.
Qed.

Lemma drop_course_flag (c : Connection) (sid : string) (X : Z) :
  fst (fst (drop_course c sid X))
  = existsb (drop_matches sid X) (Enrollment (tables c)).
Proof.
  unfold drop_course, EnrollmentDAO.drop_enrollment. simpl.
  rewrite positive_count_existsb.
  destruct (existsb _ _); reflexivity.
Qed.

Lemma drop_course_succeeds_iff (c : Connection) (sid : string) (X : Z) :
  fst (fst (drop_course c sid X)) = true
  <-> exists e, In e (Enrollment (tables c)) /\ enrolled_row sid X e.
Proof.
  rewrite drop_course_flag, existsb_exists.
  split; intros (e & He & Hm); exists e; split; try assumption;
    apply drop_matches_spec; assumption.
Qed.

Lemma no_enrolled_row_after_drop (c : Connection) (sid : string) (X : Z) (e' : EnrollmentRow) :
  In e' (Enrollment (tables (snd (drop_course c sid X)))) -> ~ enrolled_row sid X e'.
Proof.
  rewrite drop_course_rows. intros Hin Hrow.
  apply in_map_iff in Hin as (e & <- & _).
  apply drop_matches_spec in Hrow. rewrite drop_matches_dropped in Hrow. discriminate.
Qed.

End Dropping.

(** C8.  Dropping a (student, section) pair turns every Enrolled row
    of the pair (the unique one, when the pair holds at most one) into a
    Dropped row, leaves every other row as it is, and reports success;
    when the pair has no Enrolled row the tables are unchanged and the
    call reports failure.  After any drop the pair has no Enrolled row
    left, so a repeated drop reports failure and changes nothing. *)
Theorem drop_course_transitions_or_reports_failure (c : Connection) (sid : string) (X : Z) :
  let r := StudentService.drop_course c sid X in
  let rows := Enrollment (tables c) in
  let rows' := Enrollment (tables (snd r)) in
  ((exists e, In e rows /\ enrolled_row sid X e) ->
   r = ((true, "Course dropped successfully"), snd r)
   /\ rows' = map (dropped sid X) rows
   /\ (forall e, In e rows -> enrolled_row sid X e -> In (set_Status DROPPED e) rows')
   /\ (forall e, In e rows -> ~ enrolled_row sid X e -> In e rows')
   /\ (forall e', In e' rows' -> ~ enrolled_row sid X e'))
  /\ ((forall e, In e rows -> ~ enrolled_row sid X e) ->
      r = ((false, "Failed to drop course - enrollment not found or already dropped"), snd r)
      /\ tables (snd r) = tables c)
  /\ (let r2 := StudentService.drop_course (snd r) sid X in
      fst (fst r2) = false /\ tables (snd r2) = tables (snd r)).
Proof.
  intros r rows rows'.
  assert (Hflag : forall c0,
             fst (fst (StudentService.drop_course c0 sid X)) = false ->
             (forall e, In e (Enrollment (tables c0)) -> ~ enrolled_row sid X e)).
  { intros c0 Hf e He Hrow.
    assert (fst (fst (StudentService.drop_course c0 sid X)) = true) as Ht
        by (apply drop_course_succeeds_iff; eauto).
    congruence. }
  assert (Hnone : forall c0,
             (forall e, In e (Enrollment (tables c0)) -> ~ enrolled_row sid X e) ->
             fst (fst (StudentService.drop_course c0 sid X)) = false
             /\ tables (snd (StudentService.drop_course c0 sid X)) = tables c0).
  { intros c0 Hn. split.
    - destruct (fst (fst (StudentService.drop_course c0 sid X))) eqn:E; [| reflexivity].
      apply drop_course_succeeds_iff in E as (e & He & Hrow). destruct (Hn e He Hrow).
    - rewrite drop_course_tables, map_dropped_id by assumption.
      apply with_Enrollment_same. }
  split; [| split].
  - intros Hex. apply drop_course_succeeds_iff in Hex.
    subst rows rows' r. rewrite drop_course_rows. repeat split.
    + revert Hex. unfold StudentService.drop_course.
      destruct (EnrollmentDAO.drop_enrollment c sid X) as [[] c1]; simpl;
        [reflexivity | discriminate].
    + intros e He Hrow. apply in_map_iff. exists e. split; [| assumption].
      unfold dropped. apply drop_matches_spec in Hrow. rewrite Hrow. reflexivity.
    + intros e He Hrow. apply in_map_iff. exists e. split; [| assumption].
      unfold dropped. destruct (drop_matches sid X e) eqn:E; [| reflexivity].
      apply drop_matches_spec in E. contradiction.
    + intros e' He'. rewrite <- drop_course_rows in He'.
      apply (no_enrolled_row_after_drop c sid X e' He').
  - intros Hn. destruct (Hnone c Hn) as [Hf Ht]. split; [| exact Ht].
    subst r. revert Hf. unfold StudentService.drop_course.
    destruct (EnrollmentDAO.drop_enrollment c sid X) as [[] c1]; simpl;
      [discriminate | reflexivity].
  - apply Hnone. intros e He. apply (no_enrolled_row_after_drop c sid X e He).
Qed.

Lemma drop_course_transitions_or_reports_failure_witness :
  StudentService.drop_course Sample.one_enrolled "S001" 1
  = ((true, "Course dropped successfully"),
     snd (StudentService.drop_course Sample.one_enrolled "S001" 1))
  /\ fst (fst (StudentService.drop_course Sample.nobody "S001" 1)) = false.
Proof.
  split.
  - apply (proj1 (drop_course_transitions_or_reports_failure Sample.one_enrolled "S001" 1)).
    exists (Sample.row 1 "S001" 1 ENROLLED).
    split; [left; reflexivity | repeat split].
  - assert (Hfail := proj1 (proj2 (drop_course_transitions_or_reports_failure
                                     Sample.nobody "S001" 1))).
    simpl in Hfail. rewrite (proj1 (Hfail (fun e H => False_ind _ H))). reflexivity.
Defined.

(** ** Eligibility *)

Section Eligibility.

Import StudentService.

Lemma msg_credit_limit_text : msg_credit_limit = "Exceeds maximum credit limit (40)".
Proof. vm_compute. reflexivity. Qed.

Lemma msg_below_minimum_text :
  msg_below_minimum = "Below minimum credit recommendation (10)".
Proof. vm_compute. reflexivity. Qed.

(** [new_total_credits > MAX_CREDITS_PER_SEMESTER] *)
Lemma over_limit_spec (total : Q) :
  negb (Qle_bool total (inject_Z AppConfig.MAX_CREDITS_PER_SEMESTER)) = true
  <-> (40 < total)%Q.
Proof.
  rewrite negb_true_iff. change (inject_Z AppConfig.MAX_CREDITS_PER_SEMESTER) with 40%Q.
  destruct (Qle_bool total 40) eqn:E.
  - apply Qle_bool_iff in E. split; [discriminate | intros; lra].
  - split; [| reflexivity]. intros _.
    destruct (Qlt_le_dec 40 total) as [| Hle]; [assumption |].
    apply Qle_bool_iff in Hle. congruence.
Qed.

(** [new_total_credits < MIN_CREDITS_PER_SEMESTER] *)
Lemma under_minimum_spec (total : Q) :
  negb (Qle_bool (inject_Z AppConfig.MIN_CREDITS_PER_SEMESTER) total) = true
  <-> (total < 10)%Q.
Proof.
  rewrite negb_true_iff. change (inject_Z AppConfig.MIN_CREDITS_PER_SEMESTER) with 10%Q.
  destruct (Qle_bool 10 total) eqn:E.
  - apply Qle_bool_iff in E. split; [discriminate | intros; lra].
  - split; [| reflexivity]. intros _.
    destruct (Qlt_le_dec total 10) as [| Hle]; [assumption |].
    apply Qle_bool_iff in Hle. congruence.
Qed.




Lemma validate_reaches_checks (c : Connection) (sid : string) (X : Z)
      (section : SectionInfo) :
  SectionDAO.get_section_by_id c X = Some section ->
  0 < available_spots section ->
  validate_enrollment_eligibility c sid X
  = check_eligibility X section
      (EnrollmentDAO.get_student_enrollments
         c sid (Some (si_semester section)) (Some (si_year section))).
Proof.
  intros Hsec Hspots. unfold validate_enrollment_eligibility. rewrite Hsec.
  destruct (available_spots section <=? 0) eqn:E; [| reflexivity].
  apply Z.leb_le in E. lia.
Qed.

Lemma validate_full (c : Connection) (sid : string) (X : Z) (section : SectionInfo) :
  SectionDAO.get_section_by_id c X = Some section ->
  available_spots section <= 0 ->
  validate_enrollment_eligibility c sid X = (false, [msg_full]).
Proof.
  intros Hsec Hspots. unfold validate_enrollment_eligibility. rewrite Hsec.
  apply Z.leb_le in Hspots. rewrite Hspots. reflexivity.
Qed.


Lemma not_over_limit (total : Q) :
  (total <= 40)%Q ->
  negb (Qle_bool total (inject_Z AppConfig.MAX_CREDITS_PER_SEMESTER)) = false.
Proof.
  intros Hle. destruct (negb _) eqn:E; [| reflexivity].
  apply over_limit_spec in E. lra.
Qed.



(** The warning is attached only to a positive answer, and only for
    an empty list of current-term enrollments. *)
Lemma check_warning (X : Z) (section : SectionInfo) (current : list EnrollmentInfo) :
  In msg_below_minimum (snd (check_eligibility X section current))
  <-> (current_credits current + si_credits section < 10)%Q /\ current = [].
Proof.
  unfold check_eligibility.
  destruct (negb (Qle_bool _ (inject_Z AppConfig.MAX_CREDITS_PER_SEMESTER))) eqn:Eover.
  { apply over_limit_spec in Eover. simpl. rewrite msg_below_minimum_text, msg_credit_limit_text.
    split; [intros [[=] | []] | intros [Hlt _]; lra]. }
  destruct current as [| e0 rest].
  - simpl. rewrite andb_true_r.
    destruct (negb (Qle_bool (inject_Z AppConfig.MIN_CREDITS_PER_SEMESTER) _)) eqn:Emin.
    + apply under_minimum_spec in Emin. simpl. tauto.
    + simpl. split; [intros [] |]. intros [Hlt _].
      apply under_minimum_spec in Hlt. simpl in Emin. congruence.
  - cbn [length Nat.eqb]. rewrite andb_false_r.
    destruct (existsb (conflicts_with section) (e0 :: rest)).
    { simpl. rewrite msg_below_minimum_text. split; [intros [[=] | []] | intros [_ [=]]]. }
    destruct (existsb _ (e0 :: rest)).
    { simpl. rewrite msg_below_minimum_text. split; [intros [[=] | []] | intros [_ [=]]]. }
    simpl. split; [intros [] | intros [_ [=]]].
Qed.

Lemma check_warning_eligible (X : Z) (section : SectionInfo) (current : list EnrollmentInfo) :
  In msg_below_minimum (snd (check_eligibility X section current)) ->
  check_eligibility X section current = (true, [msg_below_minimum]).
Proof.
  intros Hin. apply check_warning in Hin as [Hlt ->].
  unfold check_eligibility. rewrite not_over_limit by (simpl in *; lra).
  apply under_minimum_spec in Hlt. simpl in *. rewrite Hlt. reflexivity.
Qed.

(** *** The order of the rows does not matter

    [get_student_enrollments] sorts its rows; the model does not.
    The answer of the check is the same for every ordering. *)







End Eligibility.

Section EligibilityClaims.

Import StudentService.










(** C9 (as stated): S001 holds a single current-term row, with status
    Dropped, and asks for the 3-credit section 2.  The prospective
    total is 3 and no current-term enrollment has status Enrolled, yet
    no warning is issued: the test counts current-term rows of every
    status. *)
Lemma dropped_row_silences_minimum_warning :
  (forall e, In e (Sample.term_rows Sample.one_dropped "S001") ->
             status e <> "Enrolled")
  /\ option_map si_credits (SectionDAO.get_section_by_id Sample.one_dropped 2)
     = Some 3.0%Q
  /\ (current_credits
        (Sample.term_rows Sample.one_dropped "S001") + 3.0 < 10)%Q
  /\ validate_enrollment_eligibility Sample.one_dropped "S001" 2 = (true, [])
  /\ ~ In msg_below_minimum
         (snd (validate_enrollment_eligibility Sample.one_dropped "S001" 2)).
Proof.
  repeat split.
  - intros e [<- | []]. discriminate.
  - intros [].
Qed.

(** C9 (amended).  The check attaches the below-minimum warning
    exactly when the target section exists with a free seat, the
    prospective credit total is below 10 and the student has no
    current-term enrollment row at all, whatever its status; the
    answer is then positive and carries this warning only. *)
Theorem below_minimum_warning_iff (c : Connection) (sid : string) (X : Z) :
  (In msg_below_minimum (snd (validate_enrollment_eligibility c sid X))
   <-> exists section,
         SectionDAO.get_section_by_id c X = Some section
         /\ 0 < available_spots section
         /\ (current_credits (current_of c sid section) + si_credits section < 10)%Q
         /\ current_of c sid section = [])
  /\ (In msg_below_minimum (snd (validate_enrollment_eligibility c sid X)) ->
      validate_enrollment_eligibility c sid X = (true, [msg_below_minimum])).
Proof.
  destruct (SectionDAO.get_section_by_id c X) as [section |] eqn:Hsec.
  2: { unfold validate_enrollment_eligibility. rewrite Hsec. simpl.
       rewrite msg_below_minimum_text.
       split; [split |]; try (intros [[=] | []]).
       intros (section & [=] & _). }
  destruct (Z.lt_ge_cases 0 (available_spots section)) as [Hspots | Hfull].
  - rewrite (validate_reaches_checks c sid X section Hsec Hspots).
    fold (current_of c sid section). split.
    + rewrite check_warning. split.
      * intros [Hlt Hnil]. exists section. auto.
      * intros (s' & [= <-] & _ & Hlt & Hnil). auto.
    + apply check_warning_eligible.
  - rewrite (validate_full c sid X section Hsec Hfull). simpl.
    rewrite msg_below_minimum_text.
    split; [split |]; try (intros [[=] | []]).
    intros (s' & [= <-] & Hspots & _). lia.
Qed.

Lemma below_minimum_warning_iff_witness :
  validate_enrollment_eligibility Sample.nobody "S001" 2 = (true, [msg_below_minimum]).
Proof.
  apply (proj2 (below_minimum_warning_iff Sample.nobody "S001" 2)).
  left. reflexivity.
Defined.

End EligibilityClaims.

(** ** Capacity *)

Section Capacity.

Import Procedures.

(** The procedure either leaves the tables alone and reports failure,
    or finds a free seat, appends one Enrolled row and reports
    success. *)
Lemma sp_EnrollStudent_cases (d : DB) (sid : string) (X : Z) :
  (fst (sp_EnrollStudent d sid X) = d /\ snd (snd (sp_EnrollStudent d sid X)) = 0)
  \/ (exists target,
         Section d !! X = Some target
         /\ 0 < MaxCapacity target - enrolled_count d X
         /\ fst (sp_EnrollStudent d sid X)
            = with_Enrollment (Enrollment d ++ [new_Enrollment d sid X]) d
         /\ snd (snd (sp_EnrollStudent d sid X)) = 1).
Proof.
  unfold sp_EnrollStudent.
  destruct (Section d !! X) as [target |] eqn:Hsec; [| left; split; reflexivity].
  destruct (MaxCapacity target - enrolled_count d X <=? 0) eqn:Hfull;
    [left; split; reflexivity |].
  apply Z.leb_gt in Hfull.
  destruct (negb (Qle_bool _ _)); [left; split; reflexivity |].
  destruct (existsb _ _); [left; split; reflexivity |].
  destruct (existsb _ _); [left; split; reflexivity |].
  right. exists target. repeat split; assumption.
Qed.

Lemma enroll_student_tables (c : Connection) (sid : string) (X : Z) :
  tables (snd (EnrollmentDAO.enroll_student c sid X))
  = fst (sp_EnrollStudent (tables c) sid X).
Proof.
  unfold EnrollmentDAO.enroll_student. simpl.
  destruct (sp_EnrollStudent (tables c) sid X) as [d' [m s]]. reflexivity.
Qed.

Lemma enroll_student_flag (c : Connection) (sid : string) (X : Z) :
  fst (fst (EnrollmentDAO.enroll_student c sid X))
  = (snd (snd (sp_EnrollStudent (tables c) sid X)) =? 1).
Proof.
  unfold EnrollmentDAO.enroll_student. simpl.
  destruct (sp_EnrollStudent (tables c) sid X) as [d' [m s]]. reflexivity.
Qed.

(** A successful enrollment found a free seat. *)
Lemma enroll_success_needs_free_seat (c : Connection) (sid : string) (X : Z) :
  fst (fst (StudentService.enroll_in_course c sid X)) = true ->
  exists sec, Section (tables c) !! X = Some sec
              /\ 0 < MaxCapacity sec - enrolled_count (tables c) X.
Proof.
  unfold StudentService.enroll_in_course. rewrite enroll_student_flag.
  intros Hflag.
  destruct (sp_EnrollStudent_cases (tables c) sid X)
    as [[_ Hs] | (target & Hsec & Hfree & _ & _)].
  - rewrite Hs in Hflag. discriminate.
  - eauto.
Qed.

(** An update that keeps the section of every row and never turns a
    row into an Enrolled one cannot raise a count. *)
Lemma enrolled_count_map_le (f : EnrollmentRow -> EnrollmentRow) (d : DB) (X : Z) :
  (forall e, SectionID (f e) = SectionID e) ->
  (forall e, is_Enrolled (f e) = true -> is_Enrolled e = true) ->
  enrolled_count (with_Enrollment (map f (Enrollment d)) d) X <= enrolled_count d X.
Proof.
  intros Hsec Hst. unfold enrolled_count. simpl.
  apply inj_le. induction (Enrollment d) as [| e rows IH]; simpl; [lia |].
  rewrite Hsec.
  destruct (SectionID e =? X); simpl.
  - destruct (is_Enrolled (f e)) eqn:E.
    + rewrite (Hst e E). simpl. lia.
    + destruct (is_Enrolled e); simpl; lia.
  - exact IH.
Qed.

Lemma enrolled_count_insert (d : DB) (e : EnrollmentRow) (X : Z) :
  enrolled_count (with_Enrollment (Enrollment d ++ [e]) d) X
  = enrolled_count d X
    + (if (SectionID e =? X) && is_Enrolled e then 1 else 0).
Proof.
  unfold enrolled_count. simpl. rewrite List.filter_app, length_app. simpl.
  destruct ((SectionID e =? X) && is_Enrolled e); simpl; lia.
Qed.

Lemma perform_keeps_sections (op : Operation) (c : Connection) :
  Section (tables (perform op c)) = Section (tables c).
Proof.
  destruct op as [sid X | sid X | eid g]; simpl.
  - unfold StudentService.enroll_in_course. rewrite enroll_student_tables.
    destruct (sp_EnrollStudent_cases (tables c) sid X)
      as [[-> _] | (target & _ & _ & -> & _)]; reflexivity.
  - rewrite drop_course_tables. reflexivity.
  - unfold InstructorService.update_student_grade, EnrollmentDAO.update_grade.
    destruct (negb _); [reflexivity |]. simpl.
    destruct (0 <? _); reflexivity.
Qed.

Lemma perform_within_capacity (op : Operation) (c : Connection) :
  within_capacity (tables c) -> within_capacity (tables (perform op c)).
Proof.
  intros Hinv X sec Hsec. rewrite perform_keeps_sections in Hsec.
  specialize (Hinv X sec Hsec).
  destruct op as [sid Y | sid Y | eid g]; simpl.
  - unfold StudentService.enroll_in_course. rewrite enroll_student_tables.
    destruct (sp_EnrollStudent_cases (tables c) sid Y)
      as [[-> _] | (target & Htarget & Hfree & -> & _)]; [assumption |].
    rewrite enrolled_count_insert. simpl.
    destruct (Y =? X) eqn:E; simpl; [| lia].
    apply Z.eqb_eq in E. subst Y. rewrite Hsec in Htarget.
    injection Htarget as <-. lia.
  - rewrite drop_course_tables.
    etransitivity; [apply enrolled_count_map_le | exact Hinv].
    + intros e. unfold dropped. destruct (drop_matches sid Y e); reflexivity.
    + intros e. unfold dropped.
      destruct (drop_matches sid Y e); [discriminate | trivial].
  - unfold InstructorService.update_student_grade, EnrollmentDAO.update_grade.
    destruct (negb _); [assumption |].
    simpl.
    destruct (0 <? _); simpl;
      (etransitivity; [apply (enrolled_count_map_le (graded eid g)) | exact Hinv]);
      intros e; unfold graded; destruct (EnrollmentID e =? eid);
      try reflexivity; try trivial;
      unfold is_Enrolled; simpl; destruct (Qle_bool 60 g); discriminate.
Qed.

Lemma run_within_capacity (ops : list Operation) (c : Connection) :
  within_capacity (tables c) -> within_capacity (tables (run ops c)).
Proof.
  revert c. induction ops as [| op ops IH]; intros c Hinv; simpl; [assumption |].
  apply IH, perform_within_capacity, Hinv.
Qed.

End Capacity.

(** C1.  Starting from tables in which no section holds more Enrolled
    rows than its capacity, every state reached by enrollments, drops
    and grade postings keeps, for every section, the number of its
    Enrolled rows within its capacity; and an enrollment can only
    succeed in a state where the section has a free seat, that is where
    capacity minus enrolled count is positive. *)
Theorem enrolled_rows_never_exceed_capacity (c : Connection) (ops : list Operation) :
  within_capacity (tables c) ->
  (forall X sec,
      Section (tables (run ops c)) !! X = Some sec ->
      enrolled_count (tables (run ops c)) X <= MaxCapacity sec)
  /\ (forall sid X,
         fst (fst (StudentService.enroll_in_course (run ops c) sid X)) = true ->
         exists sec,
           Section (tables (run ops c)) !! X = Some sec
           /\ 0 < MaxCapacity sec - enrolled_count (tables (run ops c)) X).
Proof.
  intros Hinv. split.
  - apply (run_within_capacity ops c Hinv).
  - intros sid X. apply enroll_success_needs_free_seat.
Qed.

Lemma sample_within_capacity : within_capacity (tables Sample.nobody).
Proof.
  apply (bool_decide_unpack
           (map_Forall (fun X sec => enrolled_count (tables Sample.nobody) X <= MaxCapacity sec)
                       Sample.sections)).
  vm_compute. exact I.
Defined.

Lemma enrolled_rows_never_exceed_capacity_witness :
  let c := run [Enroll "S002" 7; Enroll "S001" 7; Drop "S002" 7; Enroll "S001" 7;
                PostGrade 2 88]
               Sample.nobody in
  (forall X sec, Section (tables c) !! X = Some sec ->
                 enrolled_count (tables c) X <= MaxCapacity sec)
  /\ map Status (Enrollment (tables c)) = [DROPPED; COMPLETED].
Proof.
  split.
  - apply (enrolled_rows_never_exceed_capacity Sample.nobody).
    exact sample_within_capacity.
  - reflexivity.
Defined.

(** * Further properties of the embedded code *)

(** ** The grade scale, continued *)

Section GradeScaleBounds.

Import AppConfig.

Ltac split_entry :=
  match goal with
  | |- context [in_range ?lo ?hi ?g] =>
      let E := fresh "E" in
      destruct (in_range lo hi g) eqn:E;
      [ apply in_range_spec in E; unfold inject_Z in E; simpl in E
      | apply in_range_false in E; unfold inject_Z in E; simpl in E ]
  end.

(** Whatever the grade, the grade points lie between 0.0 and
    [MAX_GPA]. *)
Theorem grade_points_within_scale (g : Q) :
  (0 <= scan_scale GRADE_SCALE g /\ scan_scale GRADE_SCALE g <= MAX_GPA)%Q.
Proof.
  unfold GRADE_SCALE, MAX_GPA. simpl.
  repeat split_entry; split; discriminate.
Qed.

(** The entries of the table do not overlap, so a grade that lies in an
    entry earns the points of that entry, whatever the order in which
    the dict is traversed. *)
Theorem grade_in_entry_earns_its_points (lo hi : Z) (p g : Q) :
  In ((lo, hi), p) GRADE_SCALE ->
  (inject_Z lo <= g)%Q -> (g <= inject_Z hi)%Q ->
  scan_scale GRADE_SCALE g = p.
Proof.
  intros Hin Hlo Hhi. unfold GRADE_SCALE in Hin. simpl in Hin.
  repeat (destruct Hin as [Hin | Hin];
          [ injection Hin as <- <- <-; unfold inject_Z in Hlo, Hhi;
            unfold GRADE_SCALE; simpl;
            repeat (split_entry; try lra; try reflexivity) | ]).
  destruct Hin.
Qed.

Lemma grade_in_entry_earns_its_points_witness :
  scan_scale GRADE_SCALE 88.5 = 3.0%Q.
Proof.
  apply (grade_in_entry_earns_its_points 87 89 3.0 88.5).
  - do 3 right. left. reflexivity.
  - discriminate.
  - discriminate.
Defined.

(** A grade below 0 or above 100 matches no entry and yields 0.0. *)
Theorem grade_out_of_range_earns_nothing (g : Q) :
  (g < 0)%Q \/ (100 < g)%Q -> scan_scale GRADE_SCALE g = 0.0%Q.
Proof.
  intros Hout. unfold GRADE_SCALE. simpl.
  repeat (split_entry; try lra; try reflexivity).
Qed.

Lemma grade_out_of_range_earns_nothing_witness :
  scan_scale GRADE_SCALE 100.5 = 0.0%Q /\ scan_scale GRADE_SCALE (-1) = 0.0%Q.
Proof.
  split.
  - apply (grade_out_of_range_earns_nothing 100.5). right. reflexivity.
  - apply (grade_out_of_range_earns_nothing (-1)). left. reflexivity.
Defined.

(** A grade strictly between the upper end of an entry and the next
    integer matches no entry and yields 0.0. *)
Theorem grade_between_entries_earns_nothing (lo hi : Z) (p g : Q) :
  In ((lo, hi), p) GRADE_SCALE ->
  (inject_Z hi < g)%Q -> (g < inject_Z hi + 1)%Q ->
  scan_scale GRADE_SCALE g = 0.0%Q.
Proof.
  intros Hin Hlo Hhi. unfold GRADE_SCALE in Hin. simpl in Hin.
  repeat (destruct Hin as [Hin | Hin];
          [ injection Hin as <- <- <-; unfold inject_Z in Hlo, Hhi; simpl in Hlo, Hhi;
            unfold GRADE_SCALE; simpl;
            repeat (split_entry; try lra; try reflexivity) | ]).
  destruct Hin.
Qed.

Lemma grade_between_entries_earns_nothing_witness :
  scan_scale GRADE_SCALE 89.5 = 0.0%Q.
Proof.
  apply (grade_between_entries_earns_nothing 87 89 3.0 89.5).
  - do 3 right. left. reflexivity.
  - reflexivity.
  - reflexivity.
Defined.

Lemma integer_zero_points_checked :
  forallb (fun a => Bool.eqb (Qeq_bool (scan_scale GRADE_SCALE (inject_Z a)) 0) (a <=? 64))
          integer_grades = true.
Proof. vm_compute. reflexivity. Qed.

(** A whole grade of [0,100] earns 0.0 points exactly when it is at
    most 64; together with the pass mark 60 of the status rule, the
    whole grades 60 to 64 are the passing grades without points. *)
Theorem integer_grade_zero_points_iff (a : Z) :
  0 <= a -> a <= 100 ->
  ((scan_scale GRADE_SCALE (inject_Z a) == 0)%Q <-> a <= 64).
Proof.
  intros H0 H100.
  pose proof integer_zero_points_checked as Hall.
  rewrite forallb_forall in Hall.
  specialize (Hall a (proj2 (integer_grades_spec a) (conj H0 H100))).
  apply eqb_prop in Hall.
  rewrite <- Qeq_bool_iff, Hall. apply Z.leb_le.
Qed.

Lemma integer_grade_zero_points_iff_witness :
  ~ (scan_scale GRADE_SCALE (inject_Z 65) == 0)%Q.
Proof.
  intros H.
  apply (proj1 (integer_grade_zero_points_iff 65 ltac:(discriminate) ltac:(discriminate))) in H.
  apply H. reflexivity.
Defined.

Lemma grade_points_monotone_on_integers_witness :
  (scan_scale GRADE_SCALE (inject_Z 64) <= scan_scale GRADE_SCALE (inject_Z 65))%Q.
Proof.
  apply (grade_points_monotone_on_integers 64 65); discriminate.
Defined.

End GradeScaleBounds.

(** ** Drop and grade posting on the Enrollment table *)

Section TableUpdates.

Import StudentService InstructorService.

Lemma update_student_grade_tables (c : Connection) (eid : Z) (g : Q) :
  (0 <= g /\ g <= 100)%Q ->
  tables (snd (update_student_grade c eid g))
  = with_Enrollment (map (graded eid g) (Enrollment (tables c))) (tables c).
Proof.
  intros Hin. rewrite update_student_grade_state by assumption. reflexivity.
Qed.

Lemma grade_range_dec (g : Q) : {(0 <= g /\ g <= 100)%Q} + {~ (0 <= g /\ g <= 100)%Q}.
Proof.
  destruct (Qle_bool 0 g && Qle_bool g 100) eqn:E.
  - left. apply grade_check_spec. exact E.
  - right. intros H. apply grade_check_spec in H. congruence.
Qed.

Lemma row_key_dropped (sid : string) (X : Z) (e : EnrollmentRow) :
  row_key (dropped sid X e) = row_key e.
Proof. unfold dropped. destruct (drop_matches sid X e); reflexivity. Qed.

Lemma row_key_graded (eid : Z) (g : Q) (e : EnrollmentRow) :
  row_key (graded eid g e) = row_key e.
Proof. unfold graded. destruct (EnrollmentID e =? eid); reflexivity. Qed.

(** Neither a drop nor a grade posting adds, removes or reorders rows,
    and none changes the identifier, the student or the section of a
    row: enrollments are never physically deleted. *)
Theorem drop_and_grade_keep_every_row
        (c : Connection) (sid : string) (X eid : Z) (g : Q) :
  map row_key (Enrollment (tables (snd (drop_course c sid X))))
  = map row_key (Enrollment (tables c))
  /\ map row_key (Enrollment (tables (snd (update_student_grade c eid g))))
     = map row_key (Enrollment (tables c)).
Proof.
  split.
  - rewrite drop_course_rows, map_map. apply map_ext. apply row_key_dropped.
  - destruct (grade_range_dec g) as [Hin | Hout].
    + rewrite update_student_grade_rows, map_map by assumption.
      apply map_ext. apply row_key_graded.
    + rewrite (update_student_grade_rejects c eid g Hout). reflexivity.
Qed.

(** Neither a drop nor a grade posting produces an Enrolled row: a row
    that is Enrolled afterwards was there, unchanged, before. *)
Theorem drop_and_grade_never_enrol
        (c : Connection) (sid : string) (X eid : Z) (g : Q) (e' : EnrollmentRow) :
  Status e' = ENROLLED ->
  (In e' (Enrollment (tables (snd (drop_course c sid X)))) ->
   In e' (Enrollment (tables c)))
  /\ (In e' (Enrollment (tables (snd (update_student_grade c eid g)))) ->
      In e' (Enrollment (tables c))).
Proof.
  intros Hst. split.
  - rewrite drop_course_rows. intros Hin.
    apply in_map_iff in Hin as (e & He & Hin). unfold dropped in He.
    destruct (drop_matches sid X e).
    + subst e'. discriminate Hst.
    + subst e'. exact Hin.
  - destruct (grade_range_dec g) as [Hrange | Hout].
    + rewrite update_student_grade_rows by assumption. intros Hin.
      apply in_map_iff in Hin as (e & He & Hin). unfold graded in He.
      destruct (EnrollmentID e =? eid).
      * subst e'. simpl in Hst. destruct (Qle_bool 60 g); discriminate Hst.
      * subst e'. exact Hin.
    + rewrite (update_student_grade_rejects c eid g Hout). trivial.
Qed.

Lemma drop_and_grade_never_enrol_witness :
  In (Sample.row 2 "S001" 4 ENROLLED) (Enrollment (tables Sample.heavy_load)).
Proof.
  apply (proj1 (drop_and_grade_never_enrol
                  Sample.heavy_load "S001" 3 0 0 (Sample.row 2 "S001" 4 ENROLLED)
                  eq_refl)).
  right. left. reflexivity.
Defined.

(** A grade posted under an identifier that no row carries changes no
    table and is reported as "enrollment not found"; the UPDATE has
    still been sent to the store. *)
Theorem grade_for_unknown_enrollment_is_reported
        (c : Connection) (eid : Z) (g : Q) :
  (0 <= g /\ g <= 100)%Q ->
  (forall e, In e (Enrollment (tables c)) -> EnrollmentID e <> eid) ->
  fst (update_student_grade c eid g)
  = (false, "Failed to update grade - enrollment not found")
  /\ tables (snd (update_student_grade c eid g)) = tables c
  /\ journal (snd (update_student_grade c eid g))
     = journal c ++ [UPDATE_Grade g (AppConfig.calculate_grade_points (Some g)) g eid].
Proof.
  intros Hrange Hnone. split; [| split].
  - unfold update_student_grade, EnrollmentDAO.update_grade.
    apply grade_check_spec in Hrange. rewrite Hrange. simpl.
    rewrite positive_count_existsb.
    destruct (existsb (fun e => EnrollmentID e =? eid) (Enrollment (tables c))) eqn:E;
      [| reflexivity].
    apply existsb_exists in E as (e & He & Hid). apply Z.eqb_eq in Hid.
    destruct (Hnone e He Hid).
  - rewrite update_student_grade_tables by assumption.
    replace (map (graded eid g) (Enrollment (tables c))) with (Enrollment (tables c)).
    + apply with_Enrollment_same.
    + rewrite <- (map_id (Enrollment (tables c))) at 1. apply map_ext_in.
      intros e He. unfold graded.
      destruct (EnrollmentID e =? eid) eqn:E; [| reflexivity].
      apply Z.eqb_eq in E. destruct (Hnone e He E).
  - apply update_student_grade_journal. exact Hrange.
Qed.

Lemma grade_for_unknown_enrollment_is_reported_witness :
  fst (update_student_grade Sample.one_enrolled 7 80)
  = (false, "Failed to update grade - enrollment not found").
Proof.
  apply (grade_for_unknown_enrollment_is_reported Sample.one_enrolled 7 80).
  - split; discriminate.
  - intros e [<- | []]. discriminate.
Defined.

End TableUpdates.

(** ** Seats released by drops and grade postings *)

Section SeatRelease.

Import StudentService InstructorService.

Lemma seated_after_grading (eid X : Z) (g : Q) (e : EnrollmentRow) :
  (SectionID (graded eid g e) =? X) && is_Enrolled (graded eid g e)
  = negb (EnrollmentID e =? eid) && ((SectionID e =? X) && is_Enrolled e).
Proof.
  unfold graded. destruct (EnrollmentID e =? eid); [| reflexivity].
  unfold is_Enrolled. simpl. destruct (Qle_bool 60 g); apply andb_false_r.
Qed.

Lemma seated_after_dropping (sid : string) (X Y : Z) (e : EnrollmentRow) :
  (SectionID (dropped sid X e) =? Y) && is_Enrolled (dropped sid X e)
  = negb (drop_matches sid X e) && ((SectionID e =? Y) && is_Enrolled e).
Proof.
  unfold dropped. destruct (drop_matches sid X e); [| reflexivity].
  apply andb_false_r.
Qed.

Lemma enrolled_after_grading (eid X : Z) (g : Q) (rows : list EnrollmentRow) :
  Nat.add (length (List.filter (fun e => (SectionID e =? X) && is_Enrolled e)
                               (map (graded eid g) rows)))
          (length (List.filter (enrolled_as eid X) rows))
  = length (List.filter (fun e => (SectionID e =? X) && is_Enrolled e) rows).
Proof.
  induction rows as [| e rows IH]; [reflexivity |].
  cbn [map List.filter]. rewrite seated_after_grading. unfold enrolled_as at 1.
  destruct (EnrollmentID e =? eid), (SectionID e =? X), (is_Enrolled e);
    simpl in *; lia.
Qed.

Lemma enrolled_after_dropping (sid : string) (X Y : Z) (rows : list EnrollmentRow) :
  Nat.add (length (List.filter (fun e => (SectionID e =? Y) && is_Enrolled e)
                               (map (dropped sid X) rows)))
          (if X =? Y then length (List.filter (drop_matches sid X) rows) else 0%nat)
  = length (List.filter (fun e => (SectionID e =? Y) && is_Enrolled e) rows).
Proof.
  induction rows as [| e rows IH]; [simpl; destruct (X =? Y); reflexivity |].
  cbn [map List.filter]. rewrite seated_after_dropping.
  destruct (drop_matches sid X e) eqn:Em.
  - apply drop_matches_spec in Em as (_ & Hsec & Hst).
    unfold is_Enrolled in *. rewrite Hst, Hsec. cbn [status_eqb negb andb].
    rewrite andb_true_r. destruct (X =? Y); simpl in *; lia.
  - cbn [negb andb].
    destruct ((SectionID e =? Y) && is_Enrolled e); destruct (X =? Y); simpl in *; lia.
Qed.

Lemma filter_none {A : Type} (p : A -> bool) (l : list A) :
  (forall x, In x l -> p x = false) -> List.filter p l = [].
Proof.
  induction l as [| a l IH]; intros Hn; [reflexivity |]. simpl.
  rewrite (Hn a (or_introl eq_refl)). apply IH. intros x Hx. apply Hn. right. exact Hx.
Qed.

Lemma unique_enrolled_row (eid X : Z) (rows : list EnrollmentRow) (e : EnrollmentRow) :
  List.NoDup (map EnrollmentID rows) ->
  In e rows -> EnrollmentID e = eid -> SectionID e = X -> Status e = ENROLLED ->
  length (List.filter (enrolled_as eid X) rows) = 1%nat.
Proof.
  intros Hnd Hin Hid Hsec Hst.
  induction rows as [| a rows IH]; [destruct Hin |].
  apply List.NoDup_cons_iff in Hnd as [Hfresh Hnd]. simpl.
  destruct Hin as [-> | Hin].
  - unfold enrolled_as at 1, is_Enrolled.
    rewrite Hid, Hsec, Hst, !Z.eqb_refl. simpl.
    rewrite filter_none; [reflexivity |].
    intros x Hx. unfold enrolled_as.
    destruct (EnrollmentID x =? eid) eqn:E; [| reflexivity].
    apply Z.eqb_eq in E. destruct Hfresh. rewrite Hid, <- E. apply in_map. exact Hx.
  - unfold enrolled_as at 1.
    destruct (EnrollmentID a =? eid) eqn:E.
    + apply Z.eqb_eq in E. destruct Hfresh. rewrite E, <- Hid. apply in_map. exact Hin.
    + simpl. apply IH; assumption.
Qed.

(** Posting a grade takes the graded rows out of the Enrolled count of
    their section: the section's [current_enrollment] falls and its
    [available_spots] rise by the number of Enrolled rows of the section
    that carry the posted identifier, which is one when identifiers are
    unique and the graded row was Enrolled. *)
Theorem posting_a_grade_releases_the_seat
        (c : Connection) (eid X : Z) (g : Q) (section : SectionInfo) :
  (0 <= g /\ g <= 100)%Q ->
  SectionDAO.get_section_by_id c X = Some section ->
  let released := count_rows (enrolled_as eid X) (tables c) in
  (exists section',
      SectionDAO.get_section_by_id (snd (update_student_grade c eid g)) X = Some section'
      /\ max_capacity section' = max_capacity section
      /\ current_enrollment section' = current_enrollment section - released
      /\ available_spots section' = available_spots section + released)
  /\ (forall e,
         List.NoDup (map EnrollmentID (Enrollment (tables c))) ->
         In e (Enrollment (tables c)) -> EnrollmentID e = eid ->
         SectionID e = X -> Status e = ENROLLED ->
         released = 1).
Proof.
  intros Hrange Hsec released. split.
  - unfold SectionDAO.get_section_by_id in *.
    rewrite update_student_grade_tables by assumption. simpl.
    destruct (Section (tables c) !! X) as [sec |]; [| discriminate].
    destruct (Course (tables c) !! CourseID sec) as [crs |]; [| discriminate].
    injection Hsec as <-. eexists. split; [reflexivity |]. simpl.
    pose proof (enrolled_after_grading eid X g (Enrollment (tables c))) as Hcount.
    subst released. unfold count_rows, enrolled_count. simpl. lia.
  - intros e Hnd Hin Hid HX Hst. subst released. unfold count_rows.
    rewrite (unique_enrolled_row eid X _ e Hnd Hin Hid HX Hst). reflexivity.
Qed.

Lemma posting_a_grade_releases_the_seat_witness :
  option_map available_spots
             (SectionDAO.get_section_by_id
                (snd (update_student_grade Sample.heavy_load 5 91)) 7)
  = Some 1.
Proof.
  destruct (proj1 (posting_a_grade_releases_the_seat
                     Sample.heavy_load 5 7 91 _
                     ltac:(split; discriminate) eq_refl))
    as (section' & Hsec & _ & _ & Hspots).
  rewrite Hsec. simpl. rewrite Hspots. reflexivity.
Defined.

(** A drop releases seats in the dropped section only: its
    [available_spots] rise by the number of rows the drop selected, and
    the availability of every other section is as before. *)
Theorem dropping_releases_the_seat
        (c : Connection) (sid : string) (X Y : Z) (section : SectionInfo) :
  SectionDAO.get_section_by_id c Y = Some section ->
  exists section',
    SectionDAO.get_section_by_id (snd (drop_course c sid X)) Y = Some section'
    /\ max_capacity section' = max_capacity section
    /\ available_spots section'
       = available_spots section
         + (if X =? Y then count_rows (drop_matches sid X) (tables c) else 0).
Proof.
  intros Hsec. unfold SectionDAO.get_section_by_id in *.
  rewrite drop_course_tables. simpl.
  destruct (Section (tables c) !! Y) as [sec |]; [| discriminate].
  destruct (Course (tables c) !! CourseID sec) as [crs |]; [| discriminate].
  injection Hsec as <-. eexists. split; [reflexivity |]. simpl.
  split; [reflexivity |].
  pose proof (enrolled_after_dropping sid X Y (Enrollment (tables c))) as Hcount.
  unfold count_rows, enrolled_count. simpl.
  destruct (X =? Y); lia.
Qed.

Lemma dropping_releases_the_seat_witness :
  option_map available_spots
             (SectionDAO.get_section_by_id
                (snd (drop_course Sample.heavy_load "S002" 7)) 7)
  = Some 1.
Proof.
  destruct (dropping_releases_the_seat Sample.heavy_load "S002" 7 7 _ eq_refl)
    as (section' & Hsec & _ & Hspots).
  rewrite Hsec. simpl. rewrite Hspots. reflexivity.
Defined.

End SeatRelease.

(** ** Reading enrollments *)

Section Reading.

Import StudentService InstructorService.

Lemma get_student_enrollments_rows
      (c : Connection) (sid : string) (sem : option string) (yr : option Z) :
  EnrollmentDAO.get_student_enrollments c sid sem yr
  = omap (fun e =>
            if String.eqb (StudentID e) sid
               && bool_decide (StudentID e ∈ Student (tables c))
            then match Section (tables c) !! SectionID e with
                 | Some sec =>
                     match Course (tables c) !! CourseID sec with
                     | Some crs =>
                         if term_ok sem yr sec then Some (as_info e sec crs) else None
                     | None => None
                     end
                 | None => None
                 end
            else None)
         (Enrollment (tables c)).
Proof. reflexivity. Qed.

Lemma get_student_enrollments_spec
      (c : Connection) (sid : string) (sem : option string) (yr : option Z)
      (info : EnrollmentInfo) :
  In info (EnrollmentDAO.get_student_enrollments c sid sem yr)
  <-> exists e sec crs,
        In e (Enrollment (tables c))
        /\ StudentID e = sid /\ sid ∈ Student (tables c)
        /\ Section (tables c) !! SectionID e = Some sec
        /\ Course (tables c) !! CourseID sec = Some crs
        /\ term_ok sem yr sec = true
        /\ info = as_info e sec crs.
Proof.
  rewrite get_student_enrollments_rows.
  rewrite <- list_elem_of_In, list_elem_of_omap. split.
  - intros (e & He & Hrow). apply list_elem_of_In in He.
    destruct (String.eqb (StudentID e) sid) eqn:Esid; [| discriminate Hrow].
    apply String.eqb_eq in Esid.
    destruct (bool_decide (StudentID e ∈ Student (tables c))) eqn:Ereg;
      [| discriminate Hrow].
    apply bool_decide_eq_true in Ereg. cbn [andb] in Hrow.
    destruct (Section (tables c) !! SectionID e) as [sec |] eqn:Esec; [| discriminate].
    destruct (Course (tables c) !! CourseID sec) as [crs |] eqn:Ecrs; [| discriminate].
    destruct (term_ok sem yr sec) eqn:Eterm; [| discriminate].
    injection Hrow as <-. exists e, sec, crs. subst sid.
    repeat split; try assumption.
  - intros (e & sec & crs & He & Hsid & Hreg & Hsec & Hcrs & Hterm & ->).
    exists e. split; [apply list_elem_of_In; assumption |].
    subst sid. rewrite String.eqb_refl, (bool_decide_eq_true_2 _ Hreg). cbn [andb].
    rewrite Hsec, Hcrs, Hterm. reflexivity.
Qed.

(** Every row [get_student_enrollments] returns belongs to the student
    asked for, and to the term asked for when both the semester and the
    year are truthy.  When the semester is missing or empty, or the year
    is missing or 0, the term condition is dropped and the result is
    that of the call without a term. *)
Theorem get_student_enrollments_selects
        (c : Connection) (sid : string) (sem : option string) (yr : option Z) :
  (forall info,
      In info (EnrollmentDAO.get_student_enrollments c sid sem yr) ->
      student_id info = sid
      /\ (truthy_str sem = true -> truthy_int yr = true ->
          sem = Some (semester info) /\ yr = Some (year info)))
  /\ (truthy_str sem = false \/ truthy_int yr = false ->
      EnrollmentDAO.get_student_enrollments c sid sem yr
      = EnrollmentDAO.get_student_enrollments c sid None None).
Proof.
  split.
  - intros info Hin.
    apply get_student_enrollments_spec
      in Hin as (e & sec & crs & _ & Hsid & _ & _ & _ & Hterm & ->).
    split; [exact Hsid |]. intros Hs Hy. unfold term_ok in Hterm.
    rewrite Hs, Hy in Hterm. simpl in Hterm.
    apply andb_true_iff in Hterm as [Hsem Hyr].
    destruct sem as [s |]; [| discriminate]. destruct yr as [y |]; [| discriminate].
    simpl in Hsem. apply String.eqb_eq in Hsem. apply Z.eqb_eq in Hyr.
    simpl. subst. split; reflexivity.
  - intros Hfalsy. unfold EnrollmentDAO.get_student_enrollments.
    replace (truthy_str sem && truthy_int yr) with false
      by (destruct Hfalsy as [-> | ->]; [reflexivity | symmetry; apply andb_false_r]).
    reflexivity.
Qed.

Lemma get_student_enrollments_selects_witness :
  EnrollmentDAO.get_student_enrollments Sample.heavy_load "S001" (Some "Fall") (Some 0)
  = EnrollmentDAO.get_student_enrollments Sample.heavy_load "S001" None None.
Proof.
  apply (proj2 (get_student_enrollments_selects
                  Sample.heavy_load "S001" (Some "Fall") (Some 0))).
  right. reflexivity.
Defined.

Lemma as_info_graded (g : Q) (e : EnrollmentRow) (sec : SectionRow) (crs : CourseRow) :
  let p := AppConfig.scan_scale AppConfig.GRADE_SCALE g in
  let info := as_info (set_grade g (Some p) g e) sec crs in
  status info = (if Qle_bool 60 g then "Completed" else "Failed")
  /\ final_grade info = (if Qeq_bool g 0 then None else Some g)
  /\ grade_points info = (if Qeq_bool p 0 then None else Some p).
Proof.
  simpl. destruct (Qle_bool 60 g); repeat split.
Qed.

(** Reading back a posted grade.  After a grade [g] of [0,100] is
    posted on an enrollment, the student's rows with that identifier
    show status Completed or Failed by the pass mark 60; the final grade
    reads as absent when [g] is 0, and the grade points read as absent
    whenever they are 0.0, in particular for every grade below 65.  A
    row that was listed before is still listed. *)
Theorem posted_grade_reads_back
        (c : Connection) (eid : Z) (g : Q) (sid : string)
        (sem : option string) (yr : option Z) :
  (0 <= g /\ g <= 100)%Q ->
  let c' := snd (update_student_grade c eid g) in
  let p := AppConfig.scan_scale AppConfig.GRADE_SCALE g in
  (forall info,
      In info (EnrollmentDAO.get_student_enrollments c' sid sem yr) ->
      enrollment_id info = eid ->
      status info = (if Qle_bool 60 g then "Completed" else "Failed")
      /\ final_grade info = (if Qeq_bool g 0 then None else Some g)
      /\ grade_points info = (if Qeq_bool p 0 then None else Some p)
      /\ ((g < 65)%Q -> grade_points info = None))
  /\ (forall info0,
         In info0 (EnrollmentDAO.get_student_enrollments c sid sem yr) ->
         enrollment_id info0 = eid ->
         exists info,
           In info (EnrollmentDAO.get_student_enrollments c' sid sem yr)
           /\ enrollment_id info = eid
           /\ Models.section_id info = Models.section_id info0
           /\ course_id info = course_id info0).
Proof.
  intros Hrange c' p. subst c' p. split.
  - intros info Hin Hid.
    apply get_student_enrollments_spec
      in Hin as (e' & sec & crs & He' & _ & _ & _ & _ & _ & ->).
    rewrite update_student_grade_rows in He' by assumption.
    destruct (graded_row_inv eid g _ e' He' Hid) as (e & _ & _ & ->).
    destruct (as_info_graded g e sec crs) as (Hst & Hfg & Hgp).
    repeat split; try assumption.
    intros Hlow. etransitivity; [exact Hgp |].
    rewrite (scan_below_65 g Hlow). reflexivity.
  - intros info0 Hin0 Hid0.
    apply get_student_enrollments_spec
      in Hin0 as (e & sec & crs & He & Hsid & Hreg & Hsec & Hcrs & Hterm & ->).
    simpl in Hid0.
    exists (as_info (set_grade g (AppConfig.calculate_grade_points (Some g)) g e) sec crs).
    split; [| repeat split; assumption].
    apply get_student_enrollments_spec.
    exists (set_grade g (AppConfig.calculate_grade_points (Some g)) g e), sec, crs.
    rewrite update_student_grade_tables by assumption. simpl.
    repeat split; try assumption.
    apply graded_row_intro; assumption.
Qed.

Lemma posted_grade_reads_back_witness :
  exists info,
    In info (Sample.term_rows (snd (update_student_grade Sample.one_enrolled 1 55)) "S001")
    /\ enrollment_id info = 1
    /\ Models.section_id info = 1
    /\ course_id info = "CS101".
Proof.
  apply (proj2 (posted_grade_reads_back
                  Sample.one_enrolled 1 55 "S001" (Some "Fall") (Some 2024)
                  ltac:(split; discriminate))
               _ (or_introl eq_refl) eq_refl).
Defined.

End Reading.

(** ** The answers of the eligibility check *)

Section EligibilityAnswers.

Import StudentService.



(** The two answers about the section itself.  "Section not found" is
    given exactly when the lookup fails, that is when the section row
    or the course row it joins is missing; "Section is full" is given
    exactly when the section is found and its Enrolled rows reach its
    capacity. *)
Theorem section_answers (c : Connection) (sid : string) (X : Z) :
  (validate_enrollment_eligibility c sid X = (false, [msg_not_found])
   <-> SectionDAO.get_section_by_id c X = None)
  /\ (SectionDAO.get_section_by_id c X = None
      <-> Section (tables c) !! X = None
          \/ exists sec, Section (tables c) !! X = Some sec
                         /\ Course (tables c) !! CourseID sec = None)
  /\ (validate_enrollment_eligibility c sid X = (false, [msg_full])
      <-> exists sec crs,
            Section (tables c) !! X = Some sec
            /\ Course (tables c) !! CourseID sec = Some crs
            /\ MaxCapacity sec <= enrolled_count (tables c) X).
Proof.
  split; [| split].
  - destruct (SectionDAO.get_section_by_id c X) as [section |] eqn:Hsec.
    + split; [| discriminate].
      destruct (Z.lt_ge_cases 0 (available_spots section)) as [Hspots | Hfull].
      * rewrite (validate_reaches_checks c sid X section Hsec Hspots).
        unfold check_eligibility.
        destruct (negb _); [rewrite msg_credit_limit_text; discriminate |].
        destruct (existsb _ _); [discriminate |].
        destruct (existsb _ _); discriminate.
      * rewrite (validate_full c sid X section Hsec Hfull). discriminate.
    + unfold validate_enrollment_eligibility. rewrite Hsec. split; reflexivity.
  - unfold SectionDAO.get_section_by_id.
    destruct (Section (tables c) !! X) as [sec |]; [| split; auto].
    destruct (Course (tables c) !! CourseID sec) as [crs |] eqn:Hcrs.
    + split; [discriminate |].
      intros [[=] | (sec' & [= <-] & Hnone)]. congruence.
    + split; [| reflexivity]. intros _. right. exists sec. auto.
  - destruct (SectionDAO.get_section_by_id c X) as [section |] eqn:Hsec.
    + pose proof Hsec as Hrows. unfold SectionDAO.get_section_by_id in Hrows.
      destruct (Section (tables c) !! X) as [sec |] eqn:Hs; [| discriminate].
      destruct (Course (tables c) !! CourseID sec) as [crs |] eqn:Hc; [| discriminate].
      injection Hrows as Hrows.
      assert (Hav : available_spots section = MaxCapacity sec - enrolled_count (tables c) X)
        by (subst section; reflexivity).
      destruct (Z.lt_ge_cases 0 (available_spots section)) as [Hspots | Hfull].
      * rewrite (validate_reaches_checks c sid X section Hsec Hspots).
        split.
        -- unfold check_eligibility.
           destruct (negb _); [rewrite msg_credit_limit_text; discriminate |].
           destruct (existsb _ _); [discriminate |].
           destruct (existsb _ _); discriminate.
        -- intros (sec' & crs' & [= <-] & _ & Hcap). lia.
      * rewrite (validate_full c sid X section Hsec Hfull).
        split; [| reflexivity]. intros _. exists sec, crs.
        split; [reflexivity | split; [exact Hc | lia]].
    + unfold validate_enrollment_eligibility. rewrite Hsec.
      split; [discriminate |].
      intros (sec & crs & Hs & Hc & _). unfold SectionDAO.get_section_by_id in Hsec.
      rewrite Hs, Hc in Hsec. discriminate.
Qed.


End EligibilityAnswers.

(** ** The menu actions *)

Section Menus.

Lemma enroll_in_course_journal (c : Connection) (sid : string) (X : Z) :
  journal (snd (StudentService.enroll_in_course c sid X))
  = journal c ++ [CALL_sp_EnrollStudent sid X].
Proof.
  unfold StudentService.enroll_in_course, EnrollmentDAO.enroll_student. simpl.
  destruct (Procedures.sp_EnrollStudent (tables c) sid X) as [d' [m s]]. reflexivity.
Qed.

(** The enroll action of the student menu reaches the store only after
    a positive eligibility check, and when the check gave a warning only
    after the user confirmed; then it issues the one procedure call.  In
    every other case (nothing or 0 typed, a negative check, a declined
    warning) the connection is returned untouched, and a negative check
    prints its messages as errors. *)
Theorem enroll_menu_writes_only_when_eligible
        (c : Connection) (sid : string) (section_id : option Z) (confirm : bool) :
  let r := StudentMenu.enroll_in_course c sid section_id confirm in
  (snd r = c
   \/ exists X,
       section_id = Some X /\ X <> 0
       /\ fst (StudentService.validate_enrollment_eligibility c sid X) = true
       /\ (snd (StudentService.validate_enrollment_eligibility c sid X) = []
           \/ confirm = true)
       /\ snd r = snd (StudentService.enroll_in_course c sid X)
       /\ journal (snd r) = journal c ++ [CALL_sp_EnrollStudent sid X])
  /\ (forall X,
         section_id = Some X -> X <> 0 ->
         fst (StudentService.validate_enrollment_eligibility c sid X) = false ->
         r = (map print_error
                  (snd (StudentService.validate_enrollment_eligibility c sid X)), c)).
Proof.
  intros r. subst r. unfold StudentMenu.enroll_in_course.
  destruct section_id as [X |]; [| split; [left; reflexivity | discriminate]].
  destruct (X =? 0) eqn:E0.
  { apply Z.eqb_eq in E0. split; [left; reflexivity |]. intros X' [= <-] Hne. contradiction. }
  apply Z.eqb_neq in E0.
  destruct (StudentService.validate_enrollment_eligibility c sid X)
    as [eligible warnings] eqn:Ev.
  destruct eligible; simpl.
  - split; [| intros X' [= <-] _; rewrite Ev; discriminate].
    destruct warnings as [| w ws].
    + right. exists X. rewrite Ev.
      pose proof (enroll_in_course_journal c sid X) as Hj.
      destruct (StudentService.enroll_in_course c sid X) as [[success message] c1].
      simpl in *. repeat split; auto.
    + destruct confirm; simpl; [| left; reflexivity].
      right. exists X. rewrite Ev.
      pose proof (enroll_in_course_journal c sid X) as Hj.
      destruct (StudentService.enroll_in_course c sid X) as [[success message] c1].
      simpl in *. repeat split; auto.
  - split; [left; reflexivity |]. intros X' [= <-] _ _. rewrite Ev. reflexivity.
Qed.

Lemma enroll_menu_writes_only_when_eligible_witness :
  StudentMenu.enroll_in_course Sample.heavy_load "S001" (Some 1) true
  = ([print_error "Exceeds maximum credit limit (40)"], Sample.heavy_load).
Proof.
  apply (proj2 (enroll_menu_writes_only_when_eligible
                  Sample.heavy_load "S001" (Some 1) true) 1 eq_refl).
  - discriminate.
  - reflexivity.
Defined.

Lemma drop_course_success (c : Connection) (sid : string) (X : Z) :
  (exists e, In e (Enrollment (tables c)) /\ enrolled_row sid X e) ->
  StudentService.drop_course c sid X
  = ((true, "Course dropped successfully"), snd (StudentService.drop_course c sid X)).
Proof.
  intros Hex. apply drop_course_succeeds_iff in Hex. revert Hex.
  unfold StudentService.drop_course.
  destruct (EnrollmentDAO.drop_enrollment c sid X) as [[] c1]; simpl;
    [reflexivity | discriminate].
Qed.

Lemma status_value_Enrolled (s : EnrollmentStatus) :
  status_value s = "Enrolled" -> s = ENROLLED.
Proof. destruct s; simpl; intros H; [reflexivity | discriminate ..]. Qed.

(** The drop action of the student menu offers only the student's
    current-term rows with status Enrolled, so whenever it calls the
    drop service the drop succeeds: the action either leaves the
    connection untouched or prints the success message, and it never
    prints the failure message of the service. *)
Theorem drop_menu_never_fails
        (order_by : list EnrollmentInfo -> list EnrollmentInfo)
        (c : Connection) (sid : string) (month current_year : Z)
        (typed : option Z) (confirm : bool) :
  (forall l, Permutation (order_by l) l) ->
  let r := StudentMenu.drop_course order_by c sid month current_year typed confirm in
  (snd r = c
   /\ (fst r = [] \/ fst r = [print_info "No enrolled courses to drop"]
       \/ fst r = [print_error "Please enter a valid number"]
       \/ fst r = [print_error "Invalid selection"]))
  \/ exists X e,
      In e (Enrollment (tables c)) /\ enrolled_row sid X e
      /\ r = ([print_success "Course dropped successfully"],
              snd (StudentService.drop_course c sid X)).
Proof.
  intros Hperm r. subst r. unfold StudentMenu.drop_course.
  set (shown := order_by _).
  set (enrolled_courses := List.filter _ shown).
  destruct enrolled_courses as [| e0 rest] eqn:Elist; [left; auto |].
  rewrite <- Elist.
  destruct typed as [n |]; [| left; auto].
  destruct ((0 <=? n - 1) && (n - 1 <? Z.of_nat (length enrolled_courses)));
    [| left; auto].
  destruct (nth_error enrolled_courses (Z.to_nat (n - 1))) as [sel |] eqn:Esel;
    [| left; auto].
  destruct confirm; [| left; auto].
  right.
  apply nth_error_In in Esel. subst enrolled_courses.
  apply filter_In in Esel as [Hshown Hst]. apply String.eqb_eq in Hst.
  subst shown. apply (Permutation_in _ (Hperm _)) in Hshown.
  unfold get_student_schedule in Hshown.
  apply get_student_enrollments_spec
    in Hshown as (e & sec & crs & He & Hsid & _ & _ & _ & _ & ->).
  simpl in Hst. apply status_value_Enrolled in Hst. simpl.
  assert (Hrow : enrolled_row sid (SectionID e) e) by (repeat split; assumption).
  exists (SectionID e), e. split; [exact He | split; [exact Hrow |]].
  rewrite (drop_course_success c sid (SectionID e) (ex_intro _ e (conj He Hrow))).
  reflexivity.
Qed.

Lemma drop_menu_never_fails_witness :
  fst (StudentMenu.drop_course (fun l => l) Sample.one_enrolled "S001" 10 2024
                               (Some 1) true)
  = [print_success "Course dropped successfully"].
Proof.
  destruct (drop_menu_never_fails
              (fun l => l) Sample.one_enrolled "S001" 10 2024 (Some 1) true
              (fun l => Permutation_refl l))
    as [[Hsame _] | (X & e & _ & _ & Hr)].
  - reflexivity.
  - rewrite Hr. reflexivity.
Defined.

Lemma get_section_enrollments_spec (c : Connection) (X : Z) (info : EnrollmentInfo) :
  In info (get_section_enrollments c X)
  <-> exists e sec crs,
        In e (Enrollment (tables c))
        /\ SectionID e = X /\ StudentID e ∈ Student (tables c)
        /\ Section (tables c) !! X = Some sec
        /\ Course (tables c) !! CourseID sec = Some crs
        /\ info = as_info e sec crs.
Proof.
  unfold get_section_enrollments.
  rewrite <- list_elem_of_In, list_elem_of_omap. split.
  - intros (e & He & Hrow). apply list_elem_of_In in He.
    destruct (SectionID e =? X) eqn:EX; [| discriminate Hrow].
    apply Z.eqb_eq in EX.
    destruct (bool_decide (StudentID e ∈ Student (tables c))) eqn:Ereg;
      [| discriminate Hrow].
    apply bool_decide_eq_true in Ereg. cbn [andb] in Hrow.
    destruct (Section (tables c) !! SectionID e) as [sec |] eqn:Esec; [| discriminate].
    destruct (Course (tables c) !! CourseID sec) as [crs |] eqn:Ecrs; [| discriminate].
    injection Hrow as <-. exists e, sec, crs. subst X.
    repeat split; assumption.
  - intros (e & sec & crs & He & HX & Hreg & Hsec & Hcrs & ->).
    exists e. split; [apply list_elem_of_In; assumption |].
    subst X. rewrite Z.eqb_refl, (bool_decide_eq_true_2 _ Hreg). cbn [andb].
    rewrite Hsec, Hcrs. reflexivity.
Qed.

Lemma status_value_Completed (s : EnrollmentStatus) :
  status_value s = "Completed" -> s = COMPLETED.
Proof. destruct s; simpl; intros H; [discriminate .. | reflexivity | discriminate]. Qed.

(** The grade action of the instructor menu offers only the rows of the
    section whose status is Enrolled or Completed.  So it either leaves
    the connection untouched, or it posts the typed grade on the
    identifier of such a row of the section: a row that is Failed or
    Dropped is never offered for grading. *)
Theorem grade_menu_grades_only_listed_rows
        (order_by : list EnrollmentInfo -> list EnrollmentInfo)
        (c : Connection) (section_id typed : option Z) (new_grade : option Q) :
  (forall l, Permutation (order_by l) l) ->
  let r := InstructorMenu.update_grades order_by c section_id typed new_grade in
  (snd r = c
   /\ (fst r = [] \/ fst r = [print_info "No students enrolled in this section"]
       \/ fst r = [print_error "Please enter a valid number"]
       \/ fst r = [print_error "Invalid selection"]))
  \/ exists X e g,
      section_id = Some X /\ X <> 0 /\ new_grade = Some g
      /\ In e (Enrollment (tables c)) /\ SectionID e = X
      /\ (Status e = ENROLLED \/ Status e = COMPLETED)
      /\ snd r = snd (InstructorService.update_student_grade c (EnrollmentID e) g)
      /\ fst r
         = [if fst (fst (InstructorService.update_student_grade c (EnrollmentID e) g))
            then print_success
                   (snd (fst (InstructorService.update_student_grade c (EnrollmentID e) g)))
            else print_error
                   (snd (fst (InstructorService.update_student_grade c (EnrollmentID e) g)))].
Proof.
  intros Hperm r. subst r. unfold InstructorMenu.update_grades.
  destruct section_id as [X |]; [| left; auto].
  unfold falsy_int. simpl.
  destruct (X =? 0) eqn:E0; simpl; [left; auto |].
  apply Z.eqb_neq in E0.
  set (roster := order_by _).
  destruct roster as [| i0 rest] eqn:Eroster; [left; auto |].
  rewrite <- Eroster.
  set (enrolled_students := List.filter _ roster).
  destruct typed as [n |]; [| left; auto].
  destruct ((0 <=? n - 1) && (n - 1 <? Z.of_nat (length enrolled_students)));
    [| left; auto].
  destruct (nth_error enrolled_students (Z.to_nat (n - 1))) as [sel |] eqn:Esel;
    [| left; auto].
  destruct new_grade as [g |]; [| left; auto].
  right.
  apply nth_error_In in Esel. subst enrolled_students.
  apply filter_In in Esel as [Hshown Hst].
  subst roster. apply (Permutation_in _ (Hperm _)) in Hshown.
  unfold get_section_roster in Hshown.
  apply get_section_enrollments_spec
    in Hshown as (e & sec & crs & He & HX & _ & _ & _ & ->).
  simpl in Hst. simpl.
  exists X, e, g. repeat split; try assumption.
  - apply orb_true_iff in Hst as [Hst | Hst]; apply String.eqb_eq in Hst.
    + left. apply status_value_Enrolled. exact Hst.
    + right. apply status_value_Completed. exact Hst.
  - destruct (InstructorService.update_student_grade c (EnrollmentID e) g) as [[] ?];
      reflexivity.
  - destruct (InstructorService.update_student_grade c (EnrollmentID e) g) as [[[] ?] ?];
      reflexivity.
Qed.

Lemma grade_menu_grades_only_listed_rows_witness :
  fst (InstructorMenu.update_grades (fun l => l) Sample.heavy_load (Some 7)
                                    (Some 1) (Some 91%Q))
  = [print_success "Grade updated successfully"].
Proof.
  destruct (grade_menu_grades_only_listed_rows
              (fun l => l) Sample.heavy_load (Some 7) (Some 1) (Some 91%Q)
              (fun l => Permutation_refl l))
    as [[Hsame _] | (X & e & g & _ & _ & _ & _ & _ & _ & _ & Hr)].
  - reflexivity.
  - reflexivity.
Defined.

End Menus.

(** ** The session service *)

Section Sessions.

Import AccountModels AccountStore AuthenticationService.

Lemma active_row_none (env : Environment) (d : AccountDB) (name : string) :
  (forall u, In u (User d) -> text_eq env (Username u) name = true ->
             text_eq env (Status u) "Active" = false) ->
  UserDAO.active_row env d name = None.
Proof.
  intros Hnone. unfold UserDAO.active_row.
  destruct (List.find _ (User d)) as [u |] eqn:E; [| reflexivity].
  apply find_some in E as [Hin Hp]. apply andb_true_iff in Hp as [Hn Hs].
  rewrite (Hnone u Hin Hn) in Hs. discriminate.
Qed.

(** A login is rejected with "Invalid username or password", and
    neither the session nor the store changes, when no row with that
    user name is active (unknown, inactive or pending accounts, whatever
    the password) and when the password check of the active row
    answers no.  A session that was authenticated before stays so. *)
Theorem rejected_login_changes_nothing
        (env : Environment) (s : Session) (d : AccountDB) (name password : string) :
  ((forall u, In u (User d) -> text_eq env (Username u) name = true ->
              text_eq env (Status u) "Active" = false) ->
   login env s d name password = ((false, "Invalid username or password", None), s, d))
  /\ (forall u,
         UserDAO.active_row env d name = Some u ->
         checkpw env password (Password u) = Some false ->
         login env s d name password
         = ((false, "Invalid username or password", None), s, d)).
Proof.
  split.
  - intros Hnone. unfold login, UserDAO.authenticate_user.
    rewrite (active_row_none env d name Hnone). reflexivity.
  - intros u Hrow Hpw. unfold login, UserDAO.authenticate_user.
    rewrite Hrow, Hpw. reflexivity.
Qed.

Lemma rejected_login_changes_nothing_witness :
  login SampleAccounts.env logged_out SampleAccounts.accounts "carol" "pw-carol"
  = ((false, "Invalid username or password", None), logged_out, SampleAccounts.accounts)
  /\ login SampleAccounts.env logged_out SampleAccounts.accounts "alice" "guess"
     = ((false, "Invalid username or password", None), logged_out, SampleAccounts.accounts).
Proof.
  split.
  - apply (proj1 (rejected_login_changes_nothing
                    SampleAccounts.env logged_out SampleAccounts.accounts
                    "carol" "pw-carol")).
    intros u Hin Hname. simpl in Hin.
    repeat (destruct Hin as [<- | Hin]; [first [discriminate Hname | reflexivity] |]).
    destruct Hin.
  - apply (proj2 (rejected_login_changes_nothing
                    SampleAccounts.env logged_out SampleAccounts.accounts
                    "alice" "guess") _ eq_refl).
    reflexivity.
Defined.

(** Once the password check of the active row answers yes, the row's
    last-login instant is set to the store's clock, for every row with
    that user identifier, whether or not the login then succeeds; no
    other column and no other table changes, and a returned [User]
    carries the instant that was stored before. *)
Theorem accepted_password_stamps_last_login
        (env : Environment) (s : Session) (d : AccountDB) (name password : string)
        (u : UserRow) :
  UserDAO.active_row env d name = Some u ->
  checkpw env password (Password u) = Some true ->
  let r := login env s d name password in
  snd r = UserDAO.update_last_login env d (UserID u)
  /\ (forall u', In u' (User (snd r)) <->
                 exists u0, In u0 (User d) /\ u' = stamp env (UserID u) u0)
  /\ Student (snd r) = Student d
  /\ Instructor (snd r) = Instructor d
  /\ (forall user, snd (fst (fst r)) = Some user ->
                   user_id user = UserID u
                   /\ last_login_date user = LastLoginDate u).
Proof.
  intros Hrow Hpw r.
  assert (Hdb : snd r = UserDAO.update_last_login env d (UserID u)
                /\ (forall user, snd (fst (fst r)) = Some user ->
                                 user_id user = UserID u
                                 /\ last_login_date user = LastLoginDate u)).
  { subst r. unfold login, UserDAO.authenticate_user. rewrite Hrow, Hpw.
    destruct (UserType_of (UserType u)) as [t |];
      [| split; [reflexivity | discriminate]].
    destruct (UserStatus_of (Status u)) as [st |];
      [| split; [reflexivity | discriminate]].
    cbn [user_type].
    destruct t.
    - destruct (StudentDAO.get_student_by_user_id _ _);
        (split; [reflexivity |]); simpl; intros user [= <-] || discriminate; auto.
    - destruct (InstructorDAO.get_instructor_by_user_id _ _);
        (split; [reflexivity |]); simpl; intros user [= <-] || discriminate; auto.
    - split; [reflexivity |]. simpl. intros user [= <-]. auto. }
  destruct Hdb as [Hdb Huser]. rewrite Hdb.
  repeat split; try reflexivity.
  - intros Hin. simpl in Hin. apply in_map_iff in Hin as (u0 & <- & Hin). eauto.
  - intros (u0 & Hin & ->). simpl. apply in_map. exact Hin.
  - apply Huser; assumption.
  - apply Huser; assumption.
Qed.

Lemma accepted_password_stamps_last_login_witness :
  map LastLoginDate
      (User (snd (login SampleAccounts.env logged_out SampleAccounts.accounts
                        "bob" "pw-bob")))
  = [None; Some 1000; None; None; None]
  /\ option_map last_login_date
                (snd (fst (fst (login SampleAccounts.env logged_out
                                      SampleAccounts.accounts "bob" "pw-bob"))))
     = Some (Some 7).
Proof.
  destruct (accepted_password_stamps_last_login
              SampleAccounts.env logged_out SampleAccounts.accounts "bob" "pw-bob"
              _ eq_refl eq_refl) as (Hdb & _ & _ & _ & Huser).
  split.
  - rewrite Hdb. reflexivity.
  - destruct (Huser _ eq_refl) as [_ Hdate]. reflexivity.
Defined.

Lemma UserType_eqb_eq (a b : AccountModels.UserType) : UserType_eqb a b = true <-> a = b.
Proof. destruct a, b; simpl; split; congruence. Qed.

Lemma get_student_by_user_id_owner (d : AccountDB) (uid : Z) (st : AccountModels.Student) :
  StudentDAO.get_student_by_user_id d uid = Returned (Some st) -> s_user_id st = uid.
Proof.
  unfold StudentDAO.get_student_by_user_id.
  destruct (List.find _ (AccountStore.Student d)) as [row |] eqn:E; [| discriminate].
  apply find_some in E as [_ Hid]. apply Z.eqb_eq in Hid.
  destruct (truthy_str (AccountStore.Gender row)).
  - destruct (AccountStore.Gender row) as [code |].
    + destruct (Gender_of code); [| discriminate].
      intros [= <-]. exact Hid.
    + intros [= <-]. exact Hid.
  - intros [= <-]. exact Hid.
Qed.

Lemma get_instructor_by_user_id_owner
      (d : AccountDB) (uid : Z) (ins : AccountModels.Instructor) :
  InstructorDAO.get_instructor_by_user_id d uid = Returned (Some ins) ->
  i_user_id ins = uid.
Proof.
  unfold InstructorDAO.get_instructor_by_user_id.
  destruct (List.find _ (AccountStore.Instructor d)) as [row |] eqn:E; [| discriminate].
  apply find_some in E as [_ Hid]. apply Z.eqb_eq in Hid.
  intros [= <-]. exact Hid.
Qed.

(** A login from the logged-out state that returns a user leaves a
    consistent session: it reports success, the session is
    authenticated as that user, [has_role] is true for the user's role
    and for no other, and a loaded student or instructor profile belongs
    to that user and matches the role. *)
Theorem login_after_logout_is_consistent
        (env : Environment) (d : AccountDB) (name password : string)
        (user : AccountModels.User) :
  let r := login env logged_out d name password in
  let s' := snd (fst r) in
  snd (fst (fst r)) = Some user ->
  fst (fst r) = (true, "Welcome, " +:+ name +:+ "!", Some user)
  /\ current_user s' = Some user
  /\ is_authenticated s' = true
  /\ (forall role, has_role s' role = Some true <-> role = user_type user)
  /\ (forall st, current_student s' = Some st ->
                 user_type user = STUDENT /\ s_user_id st = user_id user)
  /\ (forall ins, current_instructor s' = Some ins ->
                  user_type user = INSTRUCTOR /\ i_user_id ins = user_id user).
Proof.
  intros r s'. subst s' r. unfold login.
  destruct (UserDAO.authenticate_user env d name password) as [[[u |] |] d1];
    [| discriminate | discriminate].
  destruct (user_type u) eqn:Et.
  - destruct (StudentDAO.get_student_by_user_id d1 (user_id u)) as [st |] eqn:Est;
      [| discriminate].
    simpl. intros [= <-]. repeat split; try discriminate.
    + unfold has_role. simpl. intros [= H]. apply UserType_eqb_eq in H. congruence.
    + intros ->. unfold has_role. simpl. rewrite Et. reflexivity.
    + assumption.
    + subst st. apply (get_student_by_user_id_owner d1 _ _ Est).
  - destruct (InstructorDAO.get_instructor_by_user_id d1 (user_id u)) as [ins |] eqn:Eins;
      [| discriminate].
    simpl. intros [= <-]. repeat split; try discriminate.
    + unfold has_role. simpl. intros [= H]. apply UserType_eqb_eq in H. congruence.
    + intros ->. unfold has_role. simpl. rewrite Et. reflexivity.
    + assumption.
    + subst ins. apply (get_instructor_by_user_id_owner d1 _ _ Eins).
  - simpl. intros [= <-]. repeat split; try discriminate.
    + unfold has_role. simpl. intros [= H]. apply UserType_eqb_eq in H. congruence.
    + intros ->. unfold has_role. simpl. rewrite Et. reflexivity.
Qed.

Lemma login_after_logout_is_consistent_witness :
  option_map AccountModels.student_id
             (current_student
                (snd (fst (login SampleAccounts.env logged_out SampleAccounts.accounts
                                 "alice" "pw-alice"))))
  = Some "S001"
  /\ fst (fst (login SampleAccounts.env logged_out SampleAccounts.accounts
                     "alice" "pw-alice"))
     = (true, "Welcome, alice!",
        Some {| user_id := 1; username := "alice"; user_type := STUDENT;
                status := ACTIVE; last_login_date := None |}).
Proof.
  split; [reflexivity |].
  apply (login_after_logout_is_consistent
           SampleAccounts.env SampleAccounts.accounts "alice" "pw-alice" _ eq_refl).
Defined.

(** The two ways a login ends in "Login failed due to system error"
    after the password was accepted.  When the stored role text is not
    one of the three role values, the session is left as it was, yet the
    last-login instant has already been written.  When the role is
    Student and loading the profile raises, [current_user] has already
    been set: the login reports failure and the session is
    authenticated. *)
Theorem system_error_after_accepted_password
        (env : Environment) (s : Session) (d : AccountDB) (name password : string)
        (u : UserRow) :
  UserDAO.active_row env d name = Some u ->
  checkpw env password (Password u) = Some true ->
  (UserType_of (UserType u) = None ->
   login env s d name password
   = ((false, "Login failed due to system error", None), s,
      UserDAO.update_last_login env d (UserID u)))
  /\ (forall st,
         UserType_of (UserType u) = Some STUDENT ->
         UserStatus_of (Status u) = Some st ->
         StudentDAO.get_student_by_user_id
           (UserDAO.update_last_login env d (UserID u)) (UserID u) = Raised ->
         fst (fst (login env s d name password))
         = (false, "Login failed due to system error", None)
         /\ is_authenticated (snd (fst (login env s d name password))) = true
         /\ current_student (snd (fst (login env s d name password)))
            = current_student s).
Proof.
  intros Hrow Hpw. split.
  - intros Hrole. unfold login, UserDAO.authenticate_user.
    rewrite Hrow, Hpw, Hrole. reflexivity.
  - intros st Hrole Hst Hraise. unfold login, UserDAO.authenticate_user.
    rewrite Hrow, Hpw, Hrole, Hst. cbn [user_type user_id]. rewrite Hraise.
    repeat split.
Qed.

Lemma system_error_after_accepted_password_witness :
  login SampleAccounts.env logged_out SampleAccounts.accounts "erin" "pw-erin"
  = ((false, "Login failed due to system error", None), logged_out,
     UserDAO.update_last_login SampleAccounts.env SampleAccounts.accounts 5)
  /\ is_authenticated
       (snd (fst (login SampleAccounts.env logged_out SampleAccounts.accounts
                        "dave" "pw-dave"))) = true.
Proof.
  split.
  - apply (proj1 (system_error_after_accepted_password
                    SampleAccounts.env logged_out SampleAccounts.accounts
                    "erin" "pw-erin" _ eq_refl eq_refl)).
    reflexivity.
  - apply (proj2 (system_error_after_accepted_password
                    SampleAccounts.env logged_out SampleAccounts.accounts
                    "dave" "pw-dave" _ eq_refl eq_refl) ACTIVE); reflexivity.
Defined.

(** A login loads only the profile of the new user's role and does not
    reset the other one.  A successful login as instructor or
    administrator on a session that still holds a student profile keeps
    that profile, and [get_current_user_info] then reports the new
    user's name together with the old student identifier, and no
    instructor identifier. *)
Theorem login_keeps_the_other_profile
        (env : Environment) (s : Session) (d : AccountDB) (name password : string)
        (user : AccountModels.User) (st : AccountModels.Student) :
  let s' := snd (fst (login env s d name password)) in
  snd (fst (fst (login env s d name password))) = Some user ->
  user_type user <> STUDENT ->
  current_student s = Some st ->
  current_student s' = Some st
  /\ get_current_user_info s' !! "username" = Some (info_str (username user))
  /\ get_current_user_info s' !! "student_id"
     = Some (info_str (AccountModels.student_id st))
  /\ get_current_user_info s' !! "instructor_id" = None.
Proof.
  intros s'. subst s'. unfold login.
  destruct (UserDAO.authenticate_user env d name password) as [[[u |] |] d1];
    [| discriminate | discriminate].
  destruct (user_type u) eqn:Et.
  - destruct (StudentDAO.get_student_by_user_id d1 (user_id u)); [| discriminate].
    simpl. intros [= <-] Hne. congruence.
  - destruct (InstructorDAO.get_instructor_by_user_id d1 (user_id u)) as [ins |];
      [| discriminate].
    simpl. intros [= <-] _ Hst. unfold get_current_user_info. simpl. rewrite Hst.
    repeat split; simplify_map_eq; reflexivity.
  - simpl. intros [= <-] _ Hst. unfold get_current_user_info. simpl. rewrite Hst.
    repeat split; simplify_map_eq; reflexivity.
Qed.

Lemma login_keeps_the_other_profile_witness :
  get_current_user_info
    (snd (fst (login SampleAccounts.env
                     (snd (fst (login SampleAccounts.env logged_out
                                      SampleAccounts.accounts "alice" "pw-alice")))
                     SampleAccounts.accounts "bob" "pw-bob")))
  !! "student_id" = Some (info_str "S001").
Proof.
  refine (proj1 (proj2 (proj2 (login_keeps_the_other_profile
                                 SampleAccounts.env
                                 (snd (fst (login SampleAccounts.env logged_out
                                                  SampleAccounts.accounts
                                                  "alice" "pw-alice")))
                                 SampleAccounts.accounts
                                 "bob" "pw-bob" _ _ eq_refl _ eq_refl)))).
  discriminate.
Defined.

(** What [get_current_user_info] contains.  Without a user the dict is
    empty.  With a user it always has the four account keys; it has a
    student identifier exactly when a student profile is held, and an
    instructor identifier exactly when an instructor profile is held and
    no student profile is, so never both. *)
Theorem user_info_contents (s : Session) :
  (current_user s = None -> get_current_user_info s = ∅)
  /\ (forall u, current_user s = Some u ->
        get_current_user_info s !! "user_id" = Some (info_int (user_id u))
        /\ get_current_user_info s !! "username" = Some (info_str (username u))
        /\ get_current_user_info s !! "user_type"
           = Some (info_str (UserType_value (user_type u)))
        /\ get_current_user_info s !! "status"
           = Some (info_str (UserStatus_value (status u)))
        /\ (is_Some (get_current_user_info s !! "student_id")
            <-> is_Some (current_student s))
        /\ (is_Some (get_current_user_info s !! "instructor_id")
            <-> current_student s = None /\ is_Some (current_instructor s))).
Proof.
  split.
  - intros Hu. unfold get_current_user_info. rewrite Hu. reflexivity.
  - intros u Hu. unfold get_current_user_info. rewrite Hu.
    destruct (current_student s) as [st |], (current_instructor s) as [ins |];
      repeat split; simplify_map_eq; try reflexivity; eauto;
      intros;
      repeat match goal with
             | H : is_Some None |- _ => destruct H as [? H]; discriminate H
             | H : _ /\ _ |- _ => destruct H
             | H : Some _ = None |- _ => discriminate H
             end;
      eauto.
Qed.

Lemma user_info_contents_witness :
  get_current_user_info
    (snd (fst (login SampleAccounts.env logged_out SampleAccounts.accounts
                     "bob" "pw-bob")))
  !! "user_type" = Some (info_str "Instructor").
Proof.
  refine (proj1 (proj2 (proj2 (proj2 (user_info_contents
                                        (snd (fst (login SampleAccounts.env logged_out
                                                         SampleAccounts.accounts
                                                         "bob" "pw-bob"))))
                                     _ eq_refl)))).
Defined.

End Sessions.

(** ** The order of the rows, on an example *)

